(** * AutoDeFi.AI dashboard: client store, API client, holdings normalisation,
      safe formatters and the wallet balance fetcher.

    A shallow embedding of the TypeScript sources under [frontend/src/lib]
    (store.ts, api.ts, normalizeHoldings.ts, balanceFetcher.ts) together with
    the properties their documentation states.  JavaScript values are
    modelled by an inductive type of plain data, exceptions by an error monad
    with an explicit [try_catch], objects used as dictionaries by [gmap].
    What the runtime and the libraries provide without the code defining it
    (the parsing and printing of numerals, the Unicode case mappings, Intl
    formatting, the conversions of ethers, the answers of the chain) is a
    parameter of the definitions that use it. *)

From Stdlib Require Import ZArith NArith Ascii String List Lia DecimalString.
From stdpp Require Import base option list strings gmap.

#[local] Open Scope string_scope.
#[local] Set Warnings "-register-all".

(** ** JavaScript values and built-ins *)

Module Js.

(** Exceptions.  [Error msg] is [new Error(msg)]; the other constructors are
    the native error classes the modelled code can meet. *)
Inductive JsError : Type :=
| TypeError
| RangeError
| ReferenceError
| QuotaExceededError
| SyntaxError
| Error (msg : string).

Inductive Exn (A : Type) : Type :=
| Ok (a : A)
| Throw (e : JsError).
Arguments Ok {A} a.
Arguments Throw {A} e.

#[global] Instance Exn_ret : MRet Exn := fun A a => Ok a.
#[global] Instance Exn_bind : MBind Exn :=
  fun A B f x => match x with Ok a => f a | Throw e => Throw e end.
#[global] Instance Exn_fmap : FMap Exn :=
  fun A B f x => match x with Ok a => Ok (f a) | Throw e => Throw e end.

(** [try { body } catch (error) { handler }] *)
Definition try_catch {A} (body : Exn A) (handler : JsError -> Exn A) : Exn A :=
  match body with
  | Ok a => Ok a
  | Throw e => handler e
  end.

Definition is_ok {A} (x : Exn A) : bool :=
  match x with Ok _ => true | Throw _ => false end.

(** Numbers.  Every IEEE-754 double is NaN, an infinity, a signed zero or
    [(-1)^neg * m * 2^e] for a positive mantissa [m]; the model keeps that
    exact value. *)
Inductive JsNumber : Type :=
| NaN
| Infinity (neg : bool)
| Zero (neg : bool)
| Finite (neg : bool) (m : positive) (e : Z).

Definition Number_of_N (n : N) : JsNumber :=
  match n with
  | N0 => Zero false
  | Npos p => Finite false p 0
  end.

Definition Number_of_nat (n : nat) : JsNumber := Number_of_N (N.of_nat n).

Definition isNaN (n : JsNumber) : bool :=
  match n with NaN => true | _ => false end.

(** An integer as a number.  The integers the code meets this way
    ([Date.now()] values, [CACHE_DURATION]) are below [2^53] in magnitude,
    where every integer is a double. *)
Definition Number_of_Z (z : Z) : JsNumber :=
  match z with
  | Z0 => Zero false
  | Zpos p => Finite false p 0
  | Zneg p => Finite true p 0
  end.

(** The value [z * 2^e] of a number that is neither NaN nor infinite, as
    the pair [(z, e)]. *)
Definition exact_value (x : JsNumber) : option (Z * Z) :=
  match x with
  | NaN | Infinity _ => None
  | Zero _ => Some (0, 0)%Z
  | Finite neg m e => Some (if neg then Z.neg m else Z.pos m, e)
  end.

Definition is_negative_zero (x : JsNumber) : bool :=
  match x with Zero true => true | _ => false end.

(** The number of binary digits of a positive integer. *)
Definition bit_length (m : Z) : Z := (Z.log2 m + 1)%Z.

(** [m * 2^e] for [m > 0] when it is below [2^1024], and the infinity of
    its sign otherwise. *)
Definition finite_or_infinity (neg : bool) (m e : Z) : JsNumber :=
  if (1024 <? bit_length m + e)%Z then Infinity neg
  else Finite neg (Z.to_pos m) e.

(** The double nearest to [z * 2^e], ties to the even mantissa (IEEE 754
    round to nearest): a mantissa of more than 53 binary digits is cut to
    53.  The differences of doubles have [e >= -1074], where no further
    rounding applies. *)
Definition round_to_double (z e : Z) : JsNumber :=
  if (z =? 0)%Z then Zero false
  else
    let neg := (z <? 0)%Z in
    let m := Z.abs z in
    let shift := (bit_length m - 53)%Z in
    if (shift <=? 0)%Z then finite_or_infinity neg m e
    else
      let q := (m / 2 ^ shift)%Z in
      let r := (m mod 2 ^ shift)%Z in
      let half := (2 ^ (shift - 1))%Z in
      let q' := if (half <? r)%Z || ((r =? half)%Z && Z.odd q)
                then (q + 1)%Z else q in
      finite_or_infinity neg q' (e + shift).

(** [a - b] on numbers (Number::subtract). *)
Definition js_sub (a b : JsNumber) : JsNumber :=
  match exact_value a, exact_value b with
  | Some (za, ea), Some (zb, eb) =>
      if (za =? 0)%Z && (zb =? 0)%Z
      then Zero (is_negative_zero a && negb (is_negative_zero b))
      else
        let e := Z.min ea eb in
        round_to_double (za * 2 ^ (ea - e) - zb * 2 ^ (eb - e)) e
  | _, _ =>
      match a, b with
      | NaN, _ | _, NaN => NaN
      | Infinity na, Infinity nb => if Bool.eqb na nb then NaN else Infinity na
      | Infinity na, _ => Infinity na
      | _, Infinity nb => Infinity (negb nb)
      | _, _ => NaN
      end
  end.

(** [a < b] on numbers (Number::lessThan): false when either is NaN. *)
Definition js_lt (a b : JsNumber) : bool :=
  match exact_value a, exact_value b with
  | Some (za, ea), Some (zb, eb) =>
      let e := Z.min ea eb in
      (za * 2 ^ (ea - e) <? zb * 2 ^ (eb - e))%Z
  | _, _ =>
      match a, b with
      | NaN, _ | _, NaN => false
      | Infinity na, Infinity nb => na && negb nb
      | Infinity na, _ => na
      | _, Infinity nb => negb nb
      | _, _ => false
      end
  end.

(** Plain data: what JSON responses, wallet data and missing fields are made
    of.  An object is its list of own properties in insertion order. *)
Inductive JsValue : Type :=
| JUndefined
| JNull
| JBool (b : bool)
| JNum (n : JsNumber)
| JStr (s : string)
| JArr (elems : list JsValue)
| JObj (props : list (string * JsValue)).

(** ToBoolean *)
Definition truthy (v : JsValue) : bool :=
  match v with
  | JUndefined | JNull => false
  | JBool b => b
  | JNum NaN | JNum (Zero _) => false
  | JNum _ => true
  | JStr s => negb (String.eqb s "")
  | JArr _ | JObj _ => true
  end.

(** [a || b] *)
Definition js_or (a b : JsValue) : JsValue := if truthy a then a else b.

(** [a ?? b] *)
Definition nullish (a b : JsValue) : JsValue :=
  match a with
  | JUndefined | JNull => b
  | _ => a
  end.

Fixpoint assoc (k : string) (props : list (string * JsValue)) : JsValue :=
  match props with
  | [] => JUndefined
  | (k', v) :: rest => if String.eqb k k' then v else assoc k rest
  end.

(** Whether an object has an own property named [k]. *)
Definition has_key (k : string) (props : list (string * JsValue)) : bool :=
  existsb (fun p => String.eqb k p.1) props.

(** [v.k] for a data field name [k] (not [length], an index or a member of
    a prototype): reading a property of [undefined] or [null] throws, a
    primitive or an array has no such property. *)
Definition get_field (v : JsValue) (k : string) : Exn JsValue :=
  match v with
  | JUndefined | JNull => Throw TypeError
  | JObj props => Ok (assoc k props)
  | _ => Ok JUndefined
  end.

(** [s.repeat(n)] *)
Fixpoint repeat_string (s : string) (n : nat) : string :=
  match n with
  | O => ""
  | S k => s +:+ repeat_string s k
  end.

Fixpoint join (sep : string) (parts : list string) : string :=
  match parts with
  | [] => ""
  | [p] => p
  | p :: rest => p +:+ sep +:+ join sep rest
  end.

(** Decimal digits of a natural number, most significant first. *)
Definition digits (n : N) : list ascii :=
  list_ascii_of_string (NilZero.string_of_uint (N.to_uint n)).

(** The integer [n] for which [n / 10^f - m * 2^e] is as close to zero as
    possible, the larger one when there are two (Number.prototype.toFixed). *)
Definition scaled_round (m : positive) (e : Z) (f : nat) : Z :=
  let num := (Z.pos m * 10 ^ Z.of_nat f)%Z in
  if (0 <=? e)%Z then (num * 2 ^ e)%Z
  else (2 * num + 2 ^ (- e)) / (2 * 2 ^ (- e)).

(** [m * 2^e >= 10^21] *)
Definition at_least_1e21 (m : positive) (e : Z) : bool :=
  if (0 <=? e)%Z then (10 ^ 21 <=? Z.pos m * 2 ^ e)%Z
  else (10 ^ 21 * 2 ^ (- e) <=? Z.pos m)%Z.

(** The digits of [n] with a decimal point before the last [f] of them,
    left-padded with zeros to [f + 1] digits. *)
Definition point_digits (n : N) (f : nat) : list ascii :=
  let ds := digits n in
  if (f =? 0)%nat then ds
  else
    let padded :=
      if (length ds <=? f)%nat
      then (repeat "0"%char (f + 1 - length ds) ++ ds)%list
      else ds in
    let k := length padded in
    (take (k - f) padded ++ "."%char :: drop (k - f) padded)%list.

Section Builtins.

(** What the code relies on from the language runtime without defining it:
    StringToNumber (the numeric-literal parser behind [Number(s)]),
    Number::toString, and the Unicode case mappings
    [String.prototype.toUpperCase] and [String.prototype.toLowerCase]. *)
Variable StringToNumber : string -> JsNumber.
Variable NumberToString : JsNumber -> string.
Variable toUpperCase : string -> string.
Variable toLowerCase : string -> string.

(** [v.toUpperCase()] and [v.toLowerCase()]: only a string has the
    methods. *)
Definition call_toUpperCase (v : JsValue) : Exn string :=
  match v with
  | JStr s => Ok (toUpperCase s)
  | _ => Throw TypeError
  end.

Definition call_toLowerCase (v : JsValue) : Exn string :=
  match v with
  | JStr s => Ok (toLowerCase s)
  | _ => Throw TypeError
  end.

(** ToString on plain data.  An object is written by the [toString] it
    finds: the inherited one writes ['[object Object]']; an own property
    named [toString] hides it and, being data, cannot be called, and as the
    inherited [valueOf] returns the object itself the conversion throws a
    TypeError.  An array is written by [Array.prototype.join], which
    converts the elements in order and renders [undefined] and [null] as
    the empty string. *)
Fixpoint ToString (v : JsValue) : Exn string :=
  match v with
  | JUndefined => Ok "undefined"
  | JNull => Ok "null"
  | JBool true => Ok "true"
  | JBool false => Ok "false"
  | JNum n => Ok (NumberToString n)
  | JStr s => Ok s
  | JArr elems =>
      parts ← (fix each (xs : list JsValue) : Exn (list string) :=
                 match xs with
                 | [] => Ok []
                 | x :: rest =>
                     s ← match x with
                         | JUndefined | JNull => Ok ""
                         | _ => ToString x
                         end;
                     ss ← each rest;
                     Ok (s :: ss)
                 end) elems;
      Ok (join "," parts)
  | JObj props =>
      if has_key "toString" props then Throw TypeError
      else Ok "[object Object]"
  end.

(** [Number(v)]: an object or an array is converted through its string. *)
Definition ToNumber (v : JsValue) : Exn JsNumber :=
  match v with
  | JUndefined => Ok NaN
  | JNull => Ok (Zero false)
  | JBool true => Ok (Finite false 1 0)
  | JBool false => Ok (Zero false)
  | JNum n => Ok n
  | JStr s => Ok (StringToNumber s)
  | JArr _ | JObj _ => s ← ToString v; Ok (StringToNumber s)
  end.

(** [x.toFixed(f)] for a natural number [f]. *)
Definition toFixed (x : JsNumber) (f : nat) : Exn string :=
  if (100 <? f)%nat then Throw RangeError
  else
    match x with
    | NaN => Ok "NaN"
    | Infinity false => Ok "Infinity"
    | Infinity true => Ok "-Infinity"
    | Zero _ => Ok (string_of_list_ascii (point_digits 0 f))
    | Finite neg m e =>
        let sign := if neg then "-" else "" in
        if at_least_1e21 m e then
          Ok (sign +:+ NumberToString (Finite false m e))
        else
          Ok (sign +:+
              string_of_list_ascii (point_digits (Z.to_N (scaled_round m e f)) f))
    end.

End Builtins.

End Js.

Export Js.

(** ** lib/wallet config: the demo address *)

Module WalletConfig.

Definition DEMO_WALLET : string := "0x742d35Cc6634C0532925a3b844Bc9e7595f0bEb".

End WalletConfig.

(** ** lib/store.ts *)

Module Store.

Inductive WalletMode : Type := demo | wallet.
Inductive RiskPreference : Type := low | medium | high.

Record NetworkInfo : Type := { chainId : Z; name : string }.

Record AppState : Type := {
  mode : WalletMode;
  walletAddress : option string;
  demoWallet : string;
  riskPreference : RiskPreference;
  tokenBalances : gmap string JsNumber;
  network : option NetworkInfo;
  isLoadingBalances : bool;
  _hasHydrated : bool
}.

Definition initialState : AppState := {|
  mode := demo;
  walletAddress := None;
  demoWallet := "0x742d35Cc6634C0532925a3b844Bc9e7595f0bEb";
  riskPreference := medium;
  tokenBalances := ∅;
  network := None;
  isLoadingBalances := false;
  _hasHydrated := false
|}.

(** [set({ field })]: zustand merges the partial object into the state. *)
Definition set_mode (m : WalletMode) (s : AppState) : AppState :=
  {| mode := m; walletAddress := walletAddress s; demoWallet := demoWallet s;
     riskPreference := riskPreference s; tokenBalances := tokenBalances s;
     network := network s; isLoadingBalances := isLoadingBalances s;
     _hasHydrated := _hasHydrated s |}.

Definition set_walletAddress (a : option string) (s : AppState) : AppState :=
  {| mode := mode s; walletAddress := a; demoWallet := demoWallet s;
     riskPreference := riskPreference s; tokenBalances := tokenBalances s;
     network := network s; isLoadingBalances := isLoadingBalances s;
     _hasHydrated := _hasHydrated s |}.

Definition set_riskPreference (r : RiskPreference) (s : AppState) : AppState :=
  {| mode := mode s; walletAddress := walletAddress s; demoWallet := demoWallet s;
     riskPreference := r; tokenBalances := tokenBalances s;
     network := network s; isLoadingBalances := isLoadingBalances s;
     _hasHydrated := _hasHydrated s |}.

Definition set_tokenBalances (b : gmap string JsNumber) (s : AppState) : AppState :=
  {| mode := mode s; walletAddress := walletAddress s; demoWallet := demoWallet s;
     riskPreference := riskPreference s; tokenBalances := b;
     network := network s; isLoadingBalances := isLoadingBalances s;
     _hasHydrated := _hasHydrated s |}.

Definition set_network (n : option NetworkInfo) (s : AppState) : AppState :=
  {| mode := mode s; walletAddress := walletAddress s; demoWallet := demoWallet s;
     riskPreference := riskPreference s; tokenBalances := tokenBalances s;
     network := n; isLoadingBalances := isLoadingBalances s;
     _hasHydrated := _hasHydrated s |}.

Definition set_isLoadingBalances (l : bool) (s : AppState) : AppState :=
  {| mode := mode s; walletAddress := walletAddress s; demoWallet := demoWallet s;
     riskPreference := riskPreference s; tokenBalances := tokenBalances s;
     network := network s; isLoadingBalances := l;
     _hasHydrated := _hasHydrated s |}.

Definition set_hasHydrated (h : bool) (s : AppState) : AppState :=
  {| mode := mode s; walletAddress := walletAddress s; demoWallet := demoWallet s;
     riskPreference := riskPreference s; tokenBalances := tokenBalances s;
     network := network s; isLoadingBalances := isLoadingBalances s;
     _hasHydrated := h |}.

(** Truthiness of a [string | null]: [null] and [''] are falsy. *)
Definition truthy_address (a : option string) : bool :=
  match a with
  | Some s => negb (String.eqb s "")
  | None => false
  end.

(** [a || fallback] at type [string | null] with a string fallback. *)
Definition address_or (a : option string) (fallback : string) : string :=
  match a with
  | Some s => if truthy_address a then s else fallback
  | None => fallback
  end.

(** Actions *)
Definition setHasHydrated (value : bool) (s : AppState) : AppState :=
  set_hasHydrated value s.

Definition setMode (m : WalletMode) (s : AppState) : AppState :=
  let s1 := set_mode m s in
  match m with
  | demo =>
      set_network (Some {| chainId := 1; name := "Ethereum Mainnet" |})
        (set_tokenBalances ∅ s1)
  | wallet => s1
  end.

Definition setWalletAddress (address : option string) (s : AppState) : AppState :=
  let s1 := set_walletAddress address s in
  if truthy_address address then set_mode wallet s1 else s1.

Definition clearWallet (s : AppState) : AppState :=
  set_isLoadingBalances false
    (set_network None
       (set_tokenBalances ∅
          (set_walletAddress None (set_mode demo s)))).

Definition setRiskPreference (risk : RiskPreference) (s : AppState) : AppState :=
  set_riskPreference risk s.

Definition setTokenBalances (balances : gmap string JsNumber) (s : AppState)
  : AppState :=
  set_tokenBalances balances s.

Definition setNetwork (n : option NetworkInfo) (s : AppState) : AppState :=
  set_network n s.

Definition setLoadingBalances (loading : bool) (s : AppState) : AppState :=
  set_isLoadingBalances loading s.

(** Computed getters *)
Definition getActiveWallet (s : AppState) : string :=
  match mode s with
  | demo => demoWallet s
  | wallet => address_or (walletAddress s) (demoWallet s)
  end.

Definition isConnected (s : AppState) : bool :=
  match mode s with
  | wallet => truthy_address (walletAddress s)
  | demo => true
  end.

Definition isDemoMode (s : AppState) : bool :=
  match mode s with demo => true | wallet => false end.

(** The states of the store: the initial state and whatever the actions
    make of it. *)
Inductive Action : Type :=
| SetHasHydrated (value : bool)
| SetMode (m : WalletMode)
| SetWalletAddress (address : option string)
| ClearWallet
| SetRiskPreference (risk : RiskPreference)
| SetTokenBalances (balances : gmap string JsNumber)
| SetNetwork (n : option NetworkInfo)
| SetLoadingBalances (loading : bool).

Definition dispatch (a : Action) (s : AppState) : AppState :=
  match a with
  | SetHasHydrated v => setHasHydrated v s
  | SetMode m => setMode m s
  | SetWalletAddress addr => setWalletAddress addr s
  | ClearWallet => clearWallet s
  | SetRiskPreference r => setRiskPreference r s
  | SetTokenBalances b => setTokenBalances b s
  | SetNetwork n => setNetwork n s
  | SetLoadingBalances l => setLoadingBalances l s
  end.

Inductive reachable : AppState -> Prop :=
| reach_init : reachable initialState
| reach_step (a : Action) (s : AppState) :
    reachable s -> reachable (dispatch a s).

(** [setWalletAddress('')] followed by [setMode('wallet')] on a fresh store. *)
Definition emptyAddressState : AppState :=
  dispatch (SetMode wallet) (dispatch (SetWalletAddress (Some "")) initialState).

(** A store after a wallet has connected. *)
Definition connectedState : AppState :=
  dispatch (SetWalletAddress (Some "0x52908400098527886E0F7030069857D2E4169EE7"))
    initialState.

End Store.

(** ** lib/api.ts *)

Module Api.

Import Store.

(** The wallet address used for API calls ([window] is undefined during
    server-side rendering). *)
Definition getActiveWallet (window_defined : bool) (s : AppState) : string :=
  if negb window_defined then "0x742d35Cc6634C0532925a3b844Bc9e7595f0bEb"
  else match mode s with
       | wallet => address_or (walletAddress s) (demoWallet s)
       | demo => demoWallet s
       end.

Definition getMode (window_defined : bool) (s : AppState) : WalletMode :=
  if negb window_defined then demo else mode s.

Section Client.

(** The axios client: [client.get(url)] resolves with the response data or
    rejects. *)
Variable Portfolio : Type.
Variable client_get : string -> Exn Portfolio.

(** [getPortfolio()]: the GET requests it sends, in order, and its outcome. *)
Definition getPortfolio (window_defined : bool) (s : AppState)
  : list string * Exn Portfolio :=
  if negb window_defined then
    ([], Throw (Error "Cannot fetch portfolio on server side"))
  else
    match mode s with
    | demo =>
        (["/api/portfolio/demo"], client_get "/api/portfolio/demo")
    | wallet =>
        let w := address_or (walletAddress s) (demoWallet s) in
        let url := "/api/portfolio?wallet=" +:+ w in
        ([url], client_get url)
    end.

(** [api.portfolio.get(wallet)], [api.portfolio.demo()] and
    [api.portfolio.loadDemo(wallet)]: the request each sends and its
    outcome. *)
Definition portfolio_get (w : string) : list string * Exn Portfolio :=
  let url := "/api/portfolio?wallet=" +:+ w in ([url], client_get url).

Definition portfolio_demo : list string * Exn Portfolio :=
  (["/api/portfolio/demo"], client_get "/api/portfolio/demo").

Definition portfolio_loadDemo (w : string) : list string * Exn Portfolio :=
  let url := "/api/portfolio/demo?wallet=" +:+ w in ([url], client_get url).

End Client.

End Api.

(** ** lib/normalizeHoldings.ts *)

Module NormalizeHoldings.

Record NormalizedHolding : Type := {
  id : JsValue;
  protocol_name : JsValue;
  token_symbol : string;
  amount : JsNumber;
  apy : JsNumber;
  value_usd : JsNumber;
  last_updated : JsValue
}.

(** [a || b] and [a ?? b] where reading either operand may throw; the right
    operand is evaluated only when it is needed. *)
Definition or_else (a b : Exn JsValue) : Exn JsValue :=
  v ← a; if truthy v then Ok v else b.

Definition nullish_else (a b : Exn JsValue) : Exn JsValue :=
  v ← a; match v with JUndefined | JNull => b | _ => Ok v end.

(** [xs.map((x, index) => f(x, index))] for a callback that may throw. *)
Fixpoint map_indexed {A B} (f : A -> nat -> Exn B) (xs : list A) (index : nat)
  : Exn (list B) :=
  match xs with
  | [] => Ok []
  | x :: rest =>
      y ← f x index;
      ys ← map_indexed f rest (S index);
      Ok (y :: ys)
  end.

Section WithBuiltins.

Variable StringToNumber : string -> JsNumber.
Variable NumberToString : JsNumber -> string.
(** [String.prototype.toUpperCase] *)
Variable toUpperCase : string -> string.
(** [new Intl.NumberFormat('en-US', { style: 'currency', currency: 'USD',
    minimumFractionDigits: 2, maximumFractionDigits: 2 }).format] *)
Variable formatUSD : JsNumber -> string.

Abbreviation Number := (ToNumber StringToNumber NumberToString).

(** The callback of [holdings.map]: the fields of the object literal are
    evaluated in the order they are written. *)
Definition normalizeHolding (h : JsValue) (index : nat) : Exn NormalizedHolding :=
  h_id ← get_field h "id";
  id_ ← match h_id with
        | JUndefined => Ok (JNum (Number_of_nat index))
        | _ => get_field h "id"
        end;
  protocol_name_ ←
    or_else (get_field h "protocol_name")
      (or_else (get_field h "protocol")
         (or_else (get_field h "provider") (Ok (JStr "Unknown"))));
  symbol ← or_else (get_field h "token_symbol")
             (or_else (get_field h "symbol") (Ok (JStr "")));
  token_symbol_ ← call_toUpperCase toUpperCase symbol;
  amount_source ← nullish_else (get_field h "amount")
                    (nullish_else (get_field h "balance")
                       (Ok (JNum (Zero false))));
  amount_ ← Number amount_source;
  apy_source ← nullish_else (get_field h "apy") (Ok (JNum (Zero false)));
  apy_ ← Number apy_source;
  value_usd_source ←
    nullish_else (get_field h "value_usd") (Ok (JNum (Zero false)));
  value_usd_ ← Number value_usd_source;
  last_updated_ ←
    or_else (get_field h "updated_at")
      (or_else (get_field h "last_updated") (Ok JNull));
  Ok {| id := id_;
        protocol_name := protocol_name_;
        token_symbol := token_symbol_;
        amount := amount_;
        apy := apy_;
        value_usd := value_usd_;
        last_updated := last_updated_ |}.

(** [normalizeHoldings(holdings = [])]: the default value replaces an
    [undefined] argument. *)
Definition normalizeHoldings (holdings : JsValue) : Exn (list NormalizedHolding) :=
  let holdings := match holdings with JUndefined => JArr [] | v => v end in
  match holdings with
  | JArr elems => map_indexed normalizeHolding elems 0
  | _ => Ok []
  end.

(** The formatters; [decimals] is a natural number (a call that omits it
    passes the default, 2). *)
Definition safeToFixed (value : JsValue) (decimals : nat) : Exn string :=
  num ← Number (nullish value (JNum (Zero false)));
  if isNaN num then Ok ("0." +:+ repeat_string "0" decimals)
  else toFixed NumberToString num decimals.

Definition safeCurrency (value : JsValue) : Exn string :=
  num ← Number (nullish value (JNum (Zero false)));
  if isNaN num then Ok "$0.00"
  else Ok (formatUSD num).

Definition safePercent (value : JsValue) (decimals : nat) : Exn string :=
  num ← Number (nullish value (JNum (Zero false)));
  if isNaN num then Ok ("0." +:+ repeat_string "0" decimals +:+ "%")
  else s ← toFixed NumberToString num decimals; Ok (s +:+ "%").

End WithBuiltins.

End NormalizeHoldings.

(** ** lib/balanceFetcher.ts *)

Module BalanceFetcher.

Definition MAINNET_TOKENS : list (string * string) :=
  [ ("USDC", "0xA0b86991c6218b36c1d19D4a2e9Eb0cE3606eB48");
    ("DAI", "0x6B175474E89094C44Da98b954EedeAC495271d0F");
    ("WETH", "0xC02aaA39b223FE8D0A0e5C4F27eAD9083C756Cc2");
    ("USDT", "0xdAC17F958D2ee523a2206206994597C13D831ec7");
    ("AAVE", "0x7Fc66500c84A76Ad7e9c93437bFc5Ac33E2DDaE9") ].

(** *** Reading balances through the injected provider *)

(** The methods of the ethers API through which code reaches the chain:
    [provider.getBalance(holder)], [contract.balanceOf(holder)] and
    [contract.decimals()] read it, [sendTransaction] changes it.  A value of
    this type records that the method was called with these arguments, not
    the JSON-RPC requests the library then sends for it. *)
Inductive ChainOp : Type :=
| OpGetBalance (holder : string)
| OpBalanceOf (contract holder : string)
| OpDecimals (contract : string)
| OpSendTransaction (to payload : string).


(** The provider and the chain behind it: [new ethers.Contract(address,
    ERC20_ABI, provider)] returns or throws, and each lookup resolves with
    an integer or rejects. *)
Record Provider : Type := {
  getBalance : string -> Exn Z;
  newContract : string -> Exn unit;
  balanceOf : string -> string -> Exn Z;
  decimals : string -> Exn Z
}.

(** The browser: no [window] (server side), no [window.ethereum], or an
    injected provider with the outcome of [new ethers.BrowserProvider]. *)
Inductive Browser : Type :=
| NoWindow
| NoEthereum
| Ethereum (connect : Exn Provider).

(** A computation that uses the ethers API: the method calls it made, in
    the order it made them, and its outcome. *)
Definition Eff (A : Type) : Type := (list ChainOp * Exn A)%type.

Definition eff_ret {A} (a : A) : Eff A := ([], Ok a).

Definition eff_bind {A B} (x : Eff A) (f : A -> Eff B) : Eff B :=
  match x with
  | (t, Ok a) => let '(t', r) := f a in ((t ++ t')%list, r)
  | (t, Throw e) => (t, Throw e)
  end.

Definition eff_try {A} (body : Eff A) (handler : JsError -> Eff A) : Eff A :=
  match body with
  | (t, Ok a) => (t, Ok a)
  | (t, Throw e) => let '(t', r) := handler e in ((t ++ t')%list, r)
  end.

Definition lift {A} (x : Exn A) : Eff A := ([], x).

(** A call of method [op] whose promise settles with [answer]. *)
Definition call {A} (op : ChainOp) (answer : Exn A) : Eff A := ([op], answer).

(** [Promise.all([x, y])]: both are started, the result needs both. *)
Definition all2 {A B} (x : Eff A) (y : Eff B) : Eff (A * B) :=
  ((x.1 ++ y.1)%list, a ← x.2; b ← y.2; Ok (a, b)).

(** [Promise.all(xs)] *)
Fixpoint all {A} (xs : list (Eff A)) : Eff (list A) :=
  match xs with
  | [] => ([], Ok [])
  | x :: rest =>
      let r := all rest in
      ((x.1 ++ r.1)%list, a ← x.2; l ← r.2; Ok (a :: l))
  end.

Section Fetch.

(** [Number(ethers.formatUnits(value, decimals))]; [formatEther] is
    [formatUnits] with 18 decimals. *)
Variable unitsToNumber : Z -> Z -> Exn JsNumber.

Definition fetchEth (provider : Provider) (address : string) : Eff JsNumber :=
  eff_try
    (eff_bind (call (OpGetBalance address) (getBalance provider address))
       (fun ethBalance => lift (unitsToNumber ethBalance 18)))
    (fun _ => eff_ret (Zero false)).

Definition fetchToken (provider : Provider) (address : string)
    (entry : string * string) : Eff (string * JsNumber) :=
  let '(symbol, contractAddress) := entry in
  eff_try
    (eff_bind (lift (newContract provider contractAddress)) (fun _ =>
     eff_bind
       (all2 (call (OpBalanceOf contractAddress address)
                (balanceOf provider contractAddress address))
             (call (OpDecimals contractAddress)
                (decimals provider contractAddress)))
       (fun '(balance, dec) =>
          eff_bind (lift (unitsToNumber balance dec))
            (fun n => eff_ret (symbol, n)))))
    (fun _ => eff_ret (symbol, Zero false)).

(** [balances[symbol] = balance] on an ordinary object: the assignment
    creates or overwrites the own property [symbol], except for the name
    [__proto__], which is the prototype accessor: its setter ignores a
    number, and no property is stored. *)
Definition add_result (balances : gmap string JsNumber)
    (r : string * JsNumber) : gmap string JsNumber :=
  if String.eqb r.1 "__proto__" then balances else <[r.1 := r.2]> balances.

Definition getTokenBalances (browser : Browser) (address : string)
    (tokens : list (string * string)) : Eff (gmap string JsNumber) :=
  eff_try
    (match browser with
     | NoWindow | NoEthereum => eff_ret ∅
     | Ethereum connect =>
         eff_bind (lift connect) (fun provider =>
         eff_bind (fetchEth provider address) (fun eth =>
         let balances := <["ETH" := eth]> (∅ : gmap string JsNumber) in
         eff_bind (all (List.map (fetchToken provider address) tokens))
           (fun tokenResults =>
              eff_ret (foldl add_result balances tokenResults))))
     end)
    (fun _ => eff_ret ∅).

End Fetch.

(** *** Network information *)

Record NetworkInfo : Type := { chainId : JsNumber; name : string }.

(** The [networks] table of [getNetworkName]: an object whose keys are the
    chain ids as property names. *)
Definition networks : list (string * string) :=
  [ ("1", "Ethereum Mainnet");
    ("5", "Goerli Testnet");
    ("11155111", "Sepolia Testnet");
    ("137", "Polygon Mainnet");
    ("80001", "Mumbai Testnet");
    ("42161", "Arbitrum One");
    ("10", "Optimism");
    ("8453", "Base") ].

Fixpoint table_lookup (key : string) (table : list (string * string))
  : option string :=
  match table with
  | [] => None
  | (k, v) :: rest => if String.eqb key k then Some v else table_lookup key rest
  end.

Section Network.

(** Number::toString: a number used as a property name, or inside a
    template literal, is written by it. *)
Variable NumberToString : JsNumber -> string.

(** [networks[chainId] || `Unknown Network (${chainId})`]; every name of the
    table is truthy. *)
Definition getNetworkName (chainId : JsNumber) : string :=
  match table_lookup (NumberToString chainId) networks with
  | Some n => if String.eqb n "" then
                "Unknown Network (" +:+ NumberToString chainId +:+ ")"
              else n
  | None => "Unknown Network (" +:+ NumberToString chainId +:+ ")"
  end.

(** [provider.getNetwork()] followed by [Number(network.chainId)]: the
    chain id as a number, or a rejection. *)
Variable getNetwork : Provider -> Exn JsNumber.

(** [getNetworkInfo()]; [None] is [null]. *)
Definition getNetworkInfo (browser : Browser) : Exn (option NetworkInfo) :=
  try_catch
    (match browser with
     | NoWindow | NoEthereum => Ok None
     | Ethereum connect =>
         provider ← connect;
         id ← getNetwork provider;
         Ok (Some {| chainId := id; name := getNetworkName id |})
     end)
    (fun _ => Ok None).

End Network.

(** *** The localStorage cache *)

Definition BALANCE_CACHE_KEY : string := "wallet_balances_cache".
Definition CACHE_DURATION : Z := 5 * 60 * 1000.

(** The record [cacheBalances] writes: [balances] is the balances object,
    given by its own properties in order; [timestamp] is a [Date.now()]
    value, an integral number of milliseconds. *)
Record BalanceCache : Type := {
  address : string;
  balances : list (string * JsNumber);
  timestamp : Z
}.

(** A stored text is represented by what [JSON.parse] makes of it: either it
    is not JSON, or it is the JSON of some value. *)
Inductive StoredText : Type :=
| Malformed (text : string)
| Json (value : JsValue).

(** A number as JSON keeps it: [NaN] and the infinities are written as
    [null], the sign of zero is lost. *)
Definition json_number (n : JsNumber) : JsValue :=
  match n with
  | NaN | Infinity _ => JNull
  | Zero _ => JNum (Zero false)
  | Finite _ _ _ => JNum n
  end.

Definition JSON_stringify (d : BalanceCache) : StoredText :=
  Json (JObj [ ("address", JStr (address d));
               ("balances",
                JObj (List.map (fun p => (p.1, json_number p.2)) (balances d)));
               ("timestamp", json_number (Number_of_Z (timestamp d))) ]).

Definition JSON_parse (t : StoredText) : Exn JsValue :=
  match t with
  | Malformed _ => Throw SyntaxError
  | Json value => Ok value
  end.

(** [!cached] for a text: only the empty string is falsy. *)
Definition empty_text (t : StoredText) : bool :=
  match t with
  | Malformed text => String.eqb text ""
  | Json _ => false
  end.

(** [localStorage]: missing (server side, or access denied), or a key-value
    store that may have run out of quota. *)
Inductive LocalStorage : Type :=
| Unavailable
| Storage (items : gmap string StoredText) (full : bool).

Definition getItem (ls : LocalStorage) (key : string) : Exn (option StoredText) :=
  match ls with
  | Unavailable => Throw ReferenceError
  | Storage items _ => Ok (items !! key)
  end.

Definition setItem (ls : LocalStorage) (key : string) (value : StoredText)
  : Exn LocalStorage :=
  match ls with
  | Unavailable => Throw ReferenceError
  | Storage items true => Throw QuotaExceededError
  | Storage items false => Ok (Storage (<[key := value]> items) false)
  end.

Definition removeItem (ls : LocalStorage) (key : string) : Exn LocalStorage :=
  match ls with
  | Unavailable => Throw ReferenceError
  | Storage items full => Ok (Storage (delete key items) full)
  end.

Section Cache.

Variable StringToNumber : string -> JsNumber.
Variable NumberToString : JsNumber -> string.
(** [String.prototype.toLowerCase] *)
Variable toLowerCase : string -> string.

(** [getCachedBalances(address)] when [Date.now()] is [now].  The result is
    [null], or whatever the stored value has as [balances]. *)
Definition getCachedBalances (ls : LocalStorage) (now : Z) (addr : string)
  : Exn JsValue :=
  try_catch
    (cached ← getItem ls BALANCE_CACHE_KEY;
     match cached with
     | None => Ok JNull
     | Some text =>
         if empty_text text then Ok JNull
         else
           data ← JSON_parse text;
           data_address ← get_field data "address";
           lowered ← call_toLowerCase toLowerCase data_address;
           if String.eqb lowered (toLowerCase addr) then
             data_timestamp ← get_field data "timestamp";
             stamp ← ToNumber StringToNumber NumberToString data_timestamp;
             if js_lt (js_sub (Number_of_Z now) stamp)
                  (Number_of_Z CACHE_DURATION)
             then get_field data "balances"
             else Ok JNull
           else Ok JNull
     end)
    (fun _ => Ok JNull).

End Cache.

(** [cacheBalances(address, balances)] when [Date.now()] is [now]: the
    storage afterwards. *)
Definition cacheBalances (ls : LocalStorage) (now : Z) (addr : string)
    (bals : list (string * JsNumber)) : Exn LocalStorage :=
  try_catch
    (let data := {| address := addr; balances := bals; timestamp := now |} in
     setItem ls BALANCE_CACHE_KEY (JSON_stringify data))
    (fun _ => Ok ls).

Definition clearBalanceCache (ls : LocalStorage) : Exn LocalStorage :=
  try_catch (removeItem ls BALANCE_CACHE_KEY) (fun _ => Ok ls).

End BalanceFetcher.

(** ** lib/utils.ts *)

Module Utils.

(** [s.slice(start, stop)] for integer arguments ([None]: no [stop]): a
    negative position counts from the end, and both are clamped to the
    string. *)
Definition slice_position (len pos : Z) : Z :=
  if (pos <? 0)%Z then Z.max (len + pos) 0 else Z.min pos len.

Definition slice (s : string) (start : Z) (stop : option Z) : string :=
  let len := Z.of_nat (String.length s) in
  let from := slice_position len start in
  let to := match stop with
            | Some e => slice_position len e
            | None => len
            end in
  substring (Z.to_nat from) (Z.to_nat (Z.max (to - from) 0)) s.

Definition shortenAddress (address : string) : string :=
  if String.eqb address "" then ""
  else slice address 0 (Some 6%Z) +:+ "..." +:+ slice address (-4) None.

Section WithBuiltins.

Variable NumberToString : JsNumber -> string.
(** [new Intl.NumberFormat('en-US', { style: 'currency', ... }).format] *)
Variable formatIntlUSD : JsNumber -> string.

(** Both guards read [typeof value !== 'number' || isNaN(value)]. *)
Definition formatCurrency (value : JsValue) : Exn string :=
  match value with
  | JNum n => if isNaN n then Ok "N/A" else Ok (formatIntlUSD n)
  | _ => Ok "N/A"
  end.

Definition formatPercent (value : JsValue) : Exn string :=
  match value with
  | JNum n =>
      if isNaN n then Ok "N/A"
      else s ← toFixed NumberToString n 2; Ok (s +:+ "%")
  | _ => Ok "N/A"
  end.

Definition formatNumber (value : JsNumber) (decimals : nat) : Exn string :=
  toFixed NumberToString value decimals.

End WithBuiltins.

End Utils.

(** ** lib/formatters.ts *)

Module Formatters.

Section WithBuiltins.

Variable NumberToString : JsNumber -> string.

Definition formatUSD (amount : JsNumber) : Exn string :=
  s ← toFixed NumberToString amount 2; Ok ("$" +:+ s).

Definition formatAPY (apy : JsNumber) : Exn string :=
  s ← toFixed NumberToString apy 2; Ok (s +:+ "%").

End WithBuiltins.

End Formatters.

(** * Vocabulary of the properties

    Notions the statements below are written in; none of them is part of
    the program. *)

(** ** Fields of plain data *)

(** The value of field [k] of [h]; [undefined] when [h] has none. *)
Definition field (h : JsValue) (k : string) : JsValue :=
  match h with
  | JObj props => assoc k props
  | _ => JUndefined
  end.

(** The first value that satisfies [p], or [default]. *)
Fixpoint first_such (p : JsValue -> bool) (vs : list JsValue)
    (default : JsValue) : JsValue :=
  match vs with
  | [] => default
  | v :: rest => if p v then v else first_such p rest default
  end.

Definition defined (v : JsValue) : bool :=
  match v with JUndefined => false | _ => true end.

Definition non_nullish (v : JsValue) : bool :=
  match v with JUndefined | JNull => false | _ => true end.

(** The value whose upper-cased form becomes [token_symbol]. *)
Definition symbol_source (h : JsValue) : JsValue :=
  first_such truthy [field h "token_symbol"; field h "symbol"] (JStr "").

Definition is_string (v : JsValue) : bool :=
  match v with JStr _ => true | _ => false end.

(** The values [Number] is applied to for [amount], [apy] and
    [value_usd]. *)
Definition amount_source (h : JsValue) : JsValue :=
  first_such non_nullish [field h "amount"; field h "balance"] (JNum (Zero false)).

Definition apy_source (h : JsValue) : JsValue :=
  first_such non_nullish [field h "apy"] (JNum (Zero false)).

Definition value_usd_source (h : JsValue) : JsValue :=
  first_such non_nullish [field h "value_usd"] (JNum (Zero false)).

(** A value that has a string and a number form: it is not an object with
    an own property named [toString], nor an array with such an object
    among its elements, at any depth. *)
Fixpoint convertible (v : JsValue) : bool :=
  match v with
  | JObj props => negb (has_key "toString" props)
  | JArr elems => forallb convertible elems
  | _ => true
  end.

(** An element the callback can normalise: its fields can be read (it is
    neither [undefined] nor [null]), its symbol, when it has a truthy one,
    is a string, and its amount, apy and value have a number form. *)
Definition holding_like (h : JsValue) : bool :=
  non_nullish h && is_string (symbol_source h)
  && convertible (amount_source h) && convertible (apy_source h)
  && convertible (value_usd_source h).

(** ** Decimal strings *)

(** A decimal string is an optional minus sign, one or more
    digits and, optionally, a point followed by digits; [fraction_digits]
    counts the digits after the point. *)
Definition is_digit (c : ascii) : bool :=
  let n := nat_of_ascii c in (48 <=? n)%nat && (n <=? 57)%nat.

Fixpoint span_digits (cs : list ascii) : list ascii * list ascii :=
  match cs with
  | [] => ([], [])
  | c :: rest =>
      if is_digit c then
        let '(ds, tl) := span_digits rest in (c :: ds, tl)
      else ([], cs)
  end.

Definition fraction_digits (s : string) : option nat :=
  let cs := list_ascii_of_string s in
  let unsigned := match cs with
                  | "-"%char :: rest => rest
                  | _ => cs
                  end in
  match span_digits unsigned with
  | ([], _) => None
  | (_ :: _, []) => Some 0%nat
  | (_ :: _, "."%char :: frac) =>
      if forallb is_digit frac then Some (length frac) else None
  | (_ :: _, _ :: _) => None
  end.

(** A number [toFixed] writes in positional notation: finite and below
    [10^21] in magnitude. *)
Definition positional (x : JsNumber) : bool :=
  match x with
  | NaN | Infinity _ => false
  | Zero _ => true
  | Finite _ m e => negb (at_least_1e21 m e)
  end.

(** ** Letter case and JSON numbers *)

(** Two strings are equal up to letter case when their lower-cased forms
    are the same string. *)
Definition same_ignoring_case (toLowerCase : string -> string)
    (s1 s2 : string) : bool :=
  String.eqb (toLowerCase s1) (toLowerCase s2).

(** A number that JSON writes and reads back unchanged. *)
Definition json_exact (n : JsNumber) : bool :=
  match n with
  | Finite _ _ _ | Zero false => true
  | _ => false
  end.

(** A balances object as the value it is, and as JSON keeps it. *)
Definition balances_value (b : list (string * JsNumber)) : JsValue :=
  JObj (List.map (fun p => (p.1, JNum p.2)) b).

Definition balances_json (b : list (string * JsNumber)) : JsValue :=
  JObj (List.map (fun p => (p.1, BalanceFetcher.json_number p.2)) b).

Section Vocabulary.

Import NormalizeHoldings BalanceFetcher.

Variable StringToNumber : string -> JsNumber.
Variable NumberToString : JsNumber -> string.
Variable unitsToNumber : Z -> Z -> Exn JsNumber.

(** The record the callback builds for an element it can normalise, given
    its upper-cased symbol and its three numbers. *)
Definition normalized (h : JsValue) (index : nat) (symbol : string)
    (amount_ apy_ value_usd_ : JsNumber) : NormalizedHolding :=
  {| id := if defined (field h "id") then field h "id"
           else JNum (Number_of_nat index);
     protocol_name :=
       first_such truthy
         [field h "protocol_name"; field h "protocol"; field h "provider"]
         (JStr "Unknown");
     token_symbol := symbol;
     amount := amount_;
     apy := apy_;
     value_usd := value_usd_;
     last_updated :=
       first_such truthy [field h "updated_at"; field h "last_updated"] JNull |}.

(** [Number(value ?? 0)] *)
Definition number_of (value : JsValue) : Exn JsNumber :=
  ToNumber StringToNumber NumberToString (nullish value (JNum (Zero false))).

(** What is reported for a holder's ether and for a token: the balance when
    the contract object can be made and every lookup and the conversion
    succeed, and 0 otherwise. *)
Definition reported_eth (provider : Provider) (holder : string) : JsNumber :=
  match getBalance provider holder with
  | Ok wei =>
      match unitsToNumber wei 18 with
      | Ok n => n
      | Throw _ => Zero false
      end
  | Throw _ => Zero false
  end.

Definition reported_token (provider : Provider) (holder contract : string)
  : JsNumber :=
  match newContract provider contract,
        balanceOf provider contract holder, decimals provider contract with
  | Ok _, Ok balance, Ok dec =>
      match unitsToNumber balance dec with
      | Ok n => n
      | Throw _ => Zero false
      end
  | _, _, _ => Zero false
  end.

(** The method calls made for the tokens (none for a token whose contract
    object cannot be made), and what the tokens yield. *)
Definition token_ops (provider : Provider) (holder : string)
    (tokens : list (string * string)) : list ChainOp :=
  concat (List.map (fun entry =>
                      match newContract provider entry.2 with
                      | Ok _ => [OpBalanceOf entry.2 holder; OpDecimals entry.2]
                      | Throw _ => []
                      end)
            tokens).

Definition token_results (provider : Provider) (holder : string)
    (tokens : list (string * string)) : list (string * JsNumber) :=
  List.map (fun entry => (entry.1, reported_token provider holder entry.2)) tokens.

(** The property names an assignment [balances[name] = number] stores. *)
Definition storable (name : string) : bool := negb (String.eqb name "__proto__").

End Vocabulary.

(** ** Sample inputs *)

Definition sampleHoldings : list JsValue :=
  [ JObj [("id", JNum (Zero false)); ("protocol", JStr "Aave");
          ("symbol", JStr "usdc"); ("balance", JNum (Finite false 5 2))];
    JObj [("protocol_name", JStr "Lido"); ("token_symbol", JStr "stETH");
          ("amount", JNull)] ].

Definition emptyNameHolding : JsValue :=
  JObj [("protocol_name", JStr ""); ("protocol", JStr "Aave")].

Definition numericSymbolHolding : JsValue :=
  JObj [("protocol", JStr "Aave"); ("symbol", JNum (Finite false 5 0))].

(** Data with an own property named [toString], as
    [JSON.parse('{"toString":1}')] returns, and a holding with it as its
    amount. *)
Definition hiddenToString : JsValue :=
  JObj [("toString", JNum (Finite false 1 0))].

Definition hiddenToStringHolding : JsValue :=
  JObj [("protocol", JStr "Aave"); ("symbol", JStr "usdc");
        ("amount", hiddenToString)].

(** Case mappings for sample runs: they map the letters a-z and A-Z, as the
    runtime's mappings do on ASCII text, and leave every other character. *)
Definition upper_ascii (c : ascii) : ascii :=
  let n := nat_of_ascii c in
  if (97 <=? n)%nat && (n <=? 122)%nat then ascii_of_nat (n - 32) else c.

Definition lower_ascii (c : ascii) : ascii :=
  let n := nat_of_ascii c in
  if (65 <=? n)%nat && (n <=? 90)%nat then ascii_of_nat (n + 32) else c.

Fixpoint map_string (f : ascii -> ascii) (s : string) : string :=
  match s with
  | EmptyString => EmptyString
  | String c rest => String (f c) (map_string f rest)
  end.

Definition asciiUpperCase (s : string) : string := map_string upper_ascii s.
Definition asciiLowerCase (s : string) : string := map_string lower_ascii s.

Definition all_ascii : list ascii := List.map ascii_of_nat (seq 0 256).

(** The double nearest to 1.005, which lies just below it. *)
Definition near_1_005 : JsNumber := Finite false 4525870772462617 (-52).

(** A conversion for sample runs: whole units, the fraction dropped. *)
Definition wholeUnits (value dec : Z) : Exn JsNumber :=
  Ok (Number_of_N (Z.to_N (value / 10 ^ dec))).

(** A chain on which every lookup succeeds except [balanceOf] of the DAI
    contract. *)
Definition sampleProvider : BalanceFetcher.Provider :=
  {| BalanceFetcher.getBalance := fun _ => Ok 2000000000000000000%Z;
     BalanceFetcher.newContract := fun _ => Ok tt;
     BalanceFetcher.balanceOf := fun contract _ =>
       if String.eqb contract "0x6B175474E89094C44Da98b954EedeAC495271d0F"
       then Throw (Error "call revert exception")
       else Ok 1500000%Z;
     BalanceFetcher.decimals := fun _ => Ok 6%Z |}.

Definition sampleHolder : string := "0x52908400098527886E0F7030069857D2E4169EE7".


(** Sample cache contents. *)
Definition nanBalances : list (string * JsNumber) := [ ("ETH", NaN) ].

Definition sampleBalances : list (string * JsNumber) :=
  [ ("ETH", Finite false 3 (-1)); ("USDC", Finite false 25 0) ].

(** A stored entry that is valid JSON but no cache record: it has no
    [balances]. *)
Definition noBalancesEntry : BalanceFetcher.StoredText :=
  BalanceFetcher.Json
    (JObj [("address", JStr "0xA"); ("timestamp", JNum (Zero false))]).

Definition emptyStorage : BalanceFetcher.LocalStorage :=
  BalanceFetcher.Storage ∅ false.

Definition fullStorage : BalanceFetcher.LocalStorage :=
  BalanceFetcher.Storage ∅ true.

(** A printer for sample runs: it writes the natural numbers given with
    exponent 0 in decimal. *)
Definition printNatural (n : JsNumber) : string :=
  match n with
  | Zero _ => "0"
  | Finite false m 0 => string_of_list_ascii (digits (Npos m))
  | _ => "NaN"
  end.

(** ** Further vocabulary *)

(** The actions that act on the wallet session; the other two set the risk
    preference and the hydration flag. *)
Definition session_action (a : Store.Action) : bool :=
  match a with
  | Store.SetRiskPreference _ | Store.SetHasHydrated _ => false
  | _ => true
  end.

(** The store after a list of actions, the first one first. *)
Definition run (acts : list Store.Action) (s : Store.AppState) : Store.AppState :=
  foldl (fun st a => Store.dispatch a st) s acts.

(** A normalised holding as the object it is. *)
Definition to_js (r : NormalizeHoldings.NormalizedHolding) : JsValue :=
  JObj [ ("id", NormalizeHoldings.id r);
         ("protocol_name", NormalizeHoldings.protocol_name r);
         ("token_symbol", JStr (NormalizeHoldings.token_symbol r));
         ("amount", JNum (NormalizeHoldings.amount r));
         ("apy", JNum (NormalizeHoldings.apy r));
         ("value_usd", JNum (NormalizeHoldings.value_usd r));
         ("last_updated", NormalizeHoldings.last_updated r) ].

(** What every record of a result satisfies: an [id] that is not
    [undefined], a truthy [protocol_name], a [token_symbol] that is the
    upper-cased form of a string, and a [last_updated] that is truthy or
    [null]. *)
Definition well_normalised (toUpperCase : string -> string)
    (r : NormalizeHoldings.NormalizedHolding) : Prop :=
  defined (NormalizeHoldings.id r) = true /\
  truthy (NormalizeHoldings.protocol_name r) = true /\
  (exists s, NormalizeHoldings.token_symbol r = toUpperCase s) /\
  (NormalizeHoldings.last_updated r = JNull \/
   truthy (NormalizeHoldings.last_updated r) = true).

(** The network name as a function of the chain id as it is written. *)
Definition name_of_key (key : string) : string :=
  match BalanceFetcher.table_lookup key BalanceFetcher.networks with
  | Some n => if String.eqb n "" then "Unknown Network (" +:+ key +:+ ")" else n
  | None => "Unknown Network (" +:+ key +:+ ")"
  end.

(** * Properties *)

(** ** The store *)

Section StoreProperties.

Import Store.

Lemma truthy_address_Some (a : string) :
  truthy_address (Some a) = true <-> a <> "".
Proof.
  unfold truthy_address. destruct (String.eqb_spec a ""); simpl; split;
    intros; congruence.
Qed.

Lemma address_or_truthy (a fallback : string) :
  a <> "" -> address_or (Some a) fallback = a.
Proof.
  intros Ha. unfold address_or.
  apply truthy_address_Some in Ha. now rewrite Ha.
Qed.

Lemma address_or_falsy (o : option string) (fallback : string) :
  o = None \/ o = Some "" -> address_or o fallback = fallback.
Proof. intros [-> | ->]; reflexivity. Qed.

(** No action writes [demoWallet]. *)
Lemma dispatch_demoWallet (a : Action) (s : AppState) :
  demoWallet (dispatch a s) = demoWallet s.
Proof.
  destruct a; simpl; try reflexivity.
  - destruct m; reflexivity.
  - unfold setWalletAddress. destruct (truthy_address address); reflexivity.
Qed.

Lemma reachable_demoWallet (s : AppState) :
  reachable s -> demoWallet s = WalletConfig.DEMO_WALLET.
Proof.
  induction 1 as [| a s _ IH].
  - reflexivity.
  - now rewrite dispatch_demoWallet.
Qed.

Lemma DEMO_WALLET_nonempty : WalletConfig.DEMO_WALLET <> "".
Proof. discriminate. Qed.

(** C1, as the code has it: in every state of the store (the initial state
    and whatever the actions make of it) [getActiveWallet()] returns the
    placeholder address in demo mode whatever [walletAddress] is; in wallet
    mode it returns [walletAddress] when that is neither [null] nor the
    empty string, and the placeholder otherwise; so it never returns the
    empty string. *)
Theorem getActiveWallet_spec (s : AppState) :
  reachable s ->
  (mode s = demo -> getActiveWallet s = WalletConfig.DEMO_WALLET) /\
  (mode s = wallet ->
   forall a, walletAddress s = Some a -> a <> "" -> getActiveWallet s = a) /\
  (mode s = wallet ->
   walletAddress s = None \/ walletAddress s = Some "" ->
   getActiveWallet s = WalletConfig.DEMO_WALLET) /\
  getActiveWallet s <> "".
Proof.
  intros Hs. pose proof (reachable_demoWallet s Hs) as Hd.
  unfold getActiveWallet.
  repeat split.
  - intros ->. exact Hd.
  - intros -> a -> Ha. now apply address_or_truthy.
  - intros -> H. rewrite address_or_falsy by exact H. exact Hd.
  - destruct (mode s).
    + rewrite Hd. apply DEMO_WALLET_nonempty.
    + destruct (walletAddress s) as [a |] eqn:Ea.
      * destruct (String.eqb_spec a "") as [-> | Hne].
        -- rewrite address_or_falsy by (now right). rewrite Hd.
           apply DEMO_WALLET_nonempty.
        -- now rewrite address_or_truthy.
      * rewrite address_or_falsy by (now left). rewrite Hd.
        apply DEMO_WALLET_nonempty.
Qed.

Lemma getActiveWallet_spec_witness :
  reachable connectedState /\
  getActiveWallet connectedState = "0x52908400098527886E0F7030069857D2E4169EE7".
Proof.
  assert (reachable connectedState) as Hr by (apply reach_step, reach_init).
  split; [exact Hr |].
  destruct (getActiveWallet_spec connectedState Hr) as (_ & Hw & _).
  apply Hw; [reflexivity | reflexivity | discriminate].
Defined.

(** C1 as stated fails when [walletAddress] is the empty string: it is not
    [null], yet in wallet mode the getter returns the placeholder, not
    [walletAddress]. *)
Lemma getActiveWallet_empty_address :
  reachable emptyAddressState /\
  mode emptyAddressState = wallet /\
  walletAddress emptyAddressState = Some "" /\
  getActiveWallet emptyAddressState = WalletConfig.DEMO_WALLET /\
  String.eqb (getActiveWallet emptyAddressState) "" = false.
Proof.
  split; [apply reach_step, reach_step, reach_init |].
  repeat split; reflexivity.
Qed.

(** C4, as the code has it: in demo mode [isConnected()] is true whatever
    [walletAddress] is (also when it is [null]); in wallet mode it is true
    exactly when [walletAddress] is neither [null] nor the empty string. *)
Theorem isConnected_spec (s : AppState) :
  (mode s = demo -> isConnected s = true) /\
  (mode s = wallet ->
   (isConnected s = true <-> exists a, walletAddress s = Some a /\ a <> "")).
Proof.
  unfold isConnected. split.
  - now intros ->.
  - intros ->. destruct (walletAddress s) as [a |].
    + rewrite truthy_address_Some. split.
      * intros Ha. now exists a.
      * intros (a' & [= <-] & Ha). exact Ha.
    + simpl. split; [discriminate | intros (a & Ha & _); discriminate].
Qed.

Lemma isConnected_spec_witness :
  mode connectedState = wallet /\ isConnected connectedState = true /\
  mode initialState = demo /\ walletAddress initialState = None /\
  isConnected initialState = true.
Proof.
  destruct (isConnected_spec connectedState) as [_ Hw].
  destruct (isConnected_spec initialState) as [Hd _].
  split; [reflexivity |]. split.
  - apply Hw; [reflexivity |]. eexists. split; [reflexivity | discriminate].
  - split; [reflexivity |]. split; [reflexivity |]. apply Hd. reflexivity.
Defined.

(** C4 as stated fails when [walletAddress] is the empty string: the state
    is in wallet mode with a non-null [walletAddress], and [isConnected()]
    is false. *)
Lemma isConnected_empty_address :
  reachable emptyAddressState /\
  mode emptyAddressState = wallet /\
  walletAddress emptyAddressState = Some "" /\
  isConnected emptyAddressState = false.
Proof.
  split; [apply reach_step, reach_step, reach_init |].
  repeat split; reflexivity.
Qed.

(** C9, as the code has it: [setWalletAddress(a)] for a non-empty string [a]
    sets [walletAddress] to [a] and [mode] to wallet; [setWalletAddress('')]
    and [setWalletAddress(null)] set [walletAddress] to their argument and
    leave [mode] as it was; in every case the other fields keep their
    values. *)
Theorem setWalletAddress_spec (s : AppState) :
  (forall a, a <> "" ->
     walletAddress (setWalletAddress (Some a) s) = Some a /\
     mode (setWalletAddress (Some a) s) = wallet) /\
  (walletAddress (setWalletAddress (Some "") s) = Some "" /\
   mode (setWalletAddress (Some "") s) = mode s) /\
  (walletAddress (setWalletAddress None s) = None /\
   mode (setWalletAddress None s) = mode s) /\
  (forall address,
     demoWallet (setWalletAddress address s) = demoWallet s /\
     riskPreference (setWalletAddress address s) = riskPreference s /\
     tokenBalances (setWalletAddress address s) = tokenBalances s /\
     network (setWalletAddress address s) = network s /\
     isLoadingBalances (setWalletAddress address s) = isLoadingBalances s /\
     _hasHydrated (setWalletAddress address s) = _hasHydrated s).
Proof.
  unfold setWalletAddress. split; [| split; [| split]].
  - intros a Ha. apply truthy_address_Some in Ha. rewrite Ha.
    split; reflexivity.
  - split; reflexivity.
  - split; reflexivity.
  - intros address. destruct (truthy_address address); repeat split; reflexivity.
Qed.

Lemma setWalletAddress_spec_witness :
  walletAddress connectedState =
    Some "0x52908400098527886E0F7030069857D2E4169EE7" /\
  mode connectedState = wallet.
Proof.
  destruct (setWalletAddress_spec initialState) as [H _].
  apply (H "0x52908400098527886E0F7030069857D2E4169EE7"). discriminate.
Defined.

(** C9 as stated fails for the empty string, a non-null address: the store
    stays in demo mode. *)
Lemma setWalletAddress_empty_address :
  walletAddress (setWalletAddress (Some "") initialState) = Some "" /\
  mode (setWalletAddress (Some "") initialState) = demo.
Proof. split; reflexivity. Qed.

End StoreProperties.

(** ** The API client *)

Section ApiProperties.

Import Store Api.

Variable Portfolio : Type.
Variable client_get : string -> Exn Portfolio.

(** C2, as the code has it: on the client, in demo mode [getPortfolio()]
    sends one request, to the demo endpoint; in wallet mode it sends one
    request, to [/api/portfolio?wallet=<addr>], where [<addr>] is
    [walletAddress] when that is neither [null] nor the empty string and
    [demoWallet] otherwise.  Its outcome is the outcome of that request. *)
Theorem getPortfolio_spec (s : AppState) :
  (mode s = demo ->
   getPortfolio Portfolio client_get true s =
     (["/api/portfolio/demo"], client_get "/api/portfolio/demo")) /\
  (mode s = wallet ->
   forall a, walletAddress s = Some a -> a <> "" ->
   getPortfolio Portfolio client_get true s =
     (["/api/portfolio?wallet=" +:+ a],
      client_get ("/api/portfolio?wallet=" +:+ a))) /\
  (mode s = wallet ->
   walletAddress s = None \/ walletAddress s = Some "" ->
   getPortfolio Portfolio client_get true s =
     (["/api/portfolio?wallet=" +:+ demoWallet s],
      client_get ("/api/portfolio?wallet=" +:+ demoWallet s))).
Proof.
  unfold getPortfolio. simpl negb. cbv iota. repeat split.
  - now intros ->.
  - intros -> a -> Ha. now rewrite address_or_truthy.
  - intros -> H. now rewrite address_or_falsy.
Qed.

End ApiProperties.

Lemma getPortfolio_spec_witness :
  Store.mode Store.connectedState = Store.wallet /\
  (Api.getPortfolio unit (fun _ => Ok tt) true Store.connectedState).1 =
    ["/api/portfolio?wallet=0x52908400098527886E0F7030069857D2E4169EE7"].
Proof.
  split; [reflexivity |].
  destruct (getPortfolio_spec unit (fun _ => Ok tt) Store.connectedState)
    as (_ & Hw & _).
  rewrite (Hw eq_refl "0x52908400098527886E0F7030069857D2E4169EE7" eq_refl).
  - reflexivity.
  - discriminate.
Defined.

(** C2 as stated fails when [walletAddress] is the empty string: it is not
    [null], yet the request carries the demo address, not [walletAddress]. *)
Lemma getPortfolio_empty_address :
  Store.mode Store.emptyAddressState = Store.wallet /\
  Store.walletAddress Store.emptyAddressState = Some "" /\
  (Api.getPortfolio unit (fun _ => Ok tt) true Store.emptyAddressState).1 =
    ["/api/portfolio?wallet=0x742d35Cc6634C0532925a3b844Bc9e7595f0bEb"].
Proof. repeat split; reflexivity. Qed.

(** ** Conversions *)

Section ConversionProperties.

Variable StringToNumber : string -> JsNumber.
Variable NumberToString : JsNumber -> string.

(** The conversions succeed exactly on the convertible values, and what
    they throw is a TypeError. *)
Lemma ToString_convertible (v : JsValue) :
  (convertible v = true -> exists s, ToString NumberToString v = Ok s) /\
  (convertible v = false -> ToString NumberToString v = Throw TypeError).
Proof.
  revert v. fix IH 1. intros v.
  destruct v as [| | b | n | s | elems | props];
    try (split; [intros _; eexists; reflexivity | discriminate]).
  - split; [intros _; destruct b; eexists; reflexivity | discriminate].
  - cbn [convertible ToString].
    match goal with
    | |- context [mbind _ (?each elems)] =>
        assert ((forallb convertible elems = true ->
                 exists parts, each elems = Ok parts) /\
                (forallb convertible elems = false ->
                 each elems = Throw TypeError)) as [Hgood Hbad]
    end.
    { induction elems as [| x rest [IHgood IHbad]].
      - split; [intros _; eexists; reflexivity | discriminate].
      - destruct (IH x) as [Hx Hx'].
        cbn [forallb]. split.
        + intros H. apply andb_prop in H as [Hcx Hrest].
          destruct (Hx Hcx) as (s & Hs). destruct (IHgood Hrest) as (ss & Hss).
          rewrite Hss.
          destruct x; try rewrite Hs; eexists; reflexivity.
        + intros H. apply andb_false_iff in H as [Hcx | Hrest].
          * rewrite (Hx' Hcx). destruct x; try discriminate Hcx; reflexivity.
          * rewrite (IHbad Hrest).
            destruct (convertible x) eqn:Hcx.
            -- destruct (Hx eq_refl) as (s & Hs).
               destruct x; try rewrite Hs; reflexivity.
            -- rewrite (Hx' eq_refl).
               destruct x; try discriminate Hcx; reflexivity. }
    split.
    + intros H. destruct (Hgood H) as (parts & ->). eexists. reflexivity.
    + intros H. now rewrite (Hbad H).
  - cbn [convertible ToString]. destruct (has_key "toString" props); split;
      try discriminate; intros _; [reflexivity | eexists; reflexivity].
Qed.

Lemma ToNumber_ok (v : JsValue) :
  is_ok (ToNumber StringToNumber NumberToString v) = convertible v.
Proof.
  destruct (ToString_convertible v) as [Hgood Hbad].
  destruct v as [| | [] | n | s | elems | props]; try reflexivity;
    unfold ToNumber; destruct (convertible _) eqn:Hc;
    try (destruct (Hgood eq_refl) as (s & ->); reflexivity);
    rewrite (Hbad eq_refl); reflexivity.
Qed.

Lemma ToNumber_error (v : JsValue) :
  convertible v = false ->
  ToNumber StringToNumber NumberToString v = Throw TypeError.
Proof.
  intros Hc. destruct (ToString_convertible v) as [_ Hbad].
  destruct v as [| | [] | n | s | elems | props]; try discriminate Hc;
    unfold ToNumber; now rewrite (Hbad Hc).
Qed.

Lemma ToNumber_convertible (v : JsValue) :
  convertible v = true ->
  exists n, ToNumber StringToNumber NumberToString v = Ok n.
Proof.
  intros Hc. pose proof (ToNumber_ok v) as Hok. rewrite Hc in Hok.
  destruct (ToNumber StringToNumber NumberToString v) as [n | e];
    [now exists n | discriminate].
Qed.

Lemma convertible_nullish (v : JsValue) :
  convertible (nullish v (JNum (Zero false))) = convertible v.
Proof. now destruct v. Qed.

End ConversionProperties.

(** ** Holdings normalisation *)

Section NormalizeProperties.

Import NormalizeHoldings.

Variable StringToNumber : string -> JsNumber.
Variable NumberToString : JsNumber -> string.
Variable toUpperCase : string -> string.

Abbreviation Number := (ToNumber StringToNumber NumberToString).
Abbreviation normalizeHolding :=
  (NormalizeHoldings.normalizeHolding StringToNumber NumberToString toUpperCase).
Abbreviation normalizeHoldings :=
  (NormalizeHoldings.normalizeHoldings StringToNumber NumberToString toUpperCase).

Lemma get_field_readable (h : JsValue) (k : string) :
  non_nullish h = true -> get_field h k = Ok (field h k).
Proof. destruct h; simpl; intros; congruence. Qed.

Lemma or_else_first (a : JsValue) (b : Exn JsValue) (rest : list JsValue)
    (default : JsValue) :
  b = Ok (first_such truthy rest default) ->
  or_else (Ok a) b = Ok (first_such truthy (a :: rest) default).
Proof. intros ->. unfold or_else. simpl. now destruct (truthy a). Qed.

Lemma nullish_else_first (a : JsValue) (b : Exn JsValue) (rest : list JsValue)
    (default : JsValue) :
  b = Ok (first_such non_nullish rest default) ->
  nullish_else (Ok a) b = Ok (first_such non_nullish (a :: rest) default).
Proof. intros ->. unfold nullish_else. simpl. now destruct a. Qed.

(** On an element whose fields can be read, the callback is the upper-casing
    of the symbol followed by the three conversions. *)
Lemma normalizeHolding_steps (h : JsValue) (index : nat) :
  non_nullish h = true ->
  normalizeHolding h index =
    (symbol ← call_toUpperCase toUpperCase (symbol_source h);
     amount_ ← Number (amount_source h);
     apy_ ← Number (apy_source h);
     value_usd_ ← Number (value_usd_source h);
     Ok (normalized h index symbol amount_ apy_ value_usd_)).
Proof.
  intros Hr. unfold NormalizeHoldings.normalizeHolding.
  rewrite !(get_field_readable h _ Hr).
  rewrite (or_else_first (field h "protocol_name") _
             [field h "protocol"; field h "provider"] (JStr "Unknown"))
    by (apply or_else_first, or_else_first; reflexivity).
  rewrite (or_else_first (field h "token_symbol") _ [field h "symbol"] (JStr ""))
    by (apply or_else_first; reflexivity).
  fold (symbol_source h).
  rewrite (nullish_else_first (field h "amount") _ [field h "balance"]
             (JNum (Zero false)))
    by (apply nullish_else_first; reflexivity).
  fold (amount_source h).
  rewrite (nullish_else_first (field h "apy") _ [] (JNum (Zero false)))
    by reflexivity.
  fold (apy_source h).
  rewrite (nullish_else_first (field h "value_usd") _ [] (JNum (Zero false)))
    by reflexivity.
  fold (value_usd_source h).
  rewrite (or_else_first (field h "updated_at") _ [field h "last_updated"] JNull)
    by (apply or_else_first; reflexivity).
  unfold normalized.
  destruct (field h "id"); reflexivity.
Qed.

Lemma normalizeHolding_readable (h : JsValue) (index : nat) (sym : string)
    (a p u : JsNumber) :
  non_nullish h = true ->
  symbol_source h = JStr sym ->
  Number (amount_source h) = Ok a ->
  Number (apy_source h) = Ok p ->
  Number (value_usd_source h) = Ok u ->
  normalizeHolding h index = Ok (normalized h index (toUpperCase sym) a p u).
Proof.
  intros Hr Hs Ha Hp Hu. rewrite (normalizeHolding_steps h index Hr).
  now rewrite Hs, Ha, Hp, Hu.
Qed.

Lemma normalizeHolding_unreadable (h : JsValue) (index : nat) :
  non_nullish h = false -> normalizeHolding h index = Throw TypeError.
Proof. destruct h; intros H; try discriminate H; reflexivity. Qed.

(** [map_indexed] over elements that all succeed: same length, and the
    result at position [j] is the callback's at index [start + j]. *)
Lemma map_indexed_ok {A B} (f : A -> nat -> Exn B) (xs : list A) (start : nat) :
  (forall j x, xs !! j = Some x -> is_ok (f x (start + j)) = true) ->
  exists ys, map_indexed f xs start = Ok ys /\
             length ys = length xs /\
             forall j x, xs !! j = Some x ->
               exists y, ys !! j = Some y /\ f x (start + j) = Ok y.
Proof.
  revert start. induction xs as [| x xs IH]; intros start Hall.
  - exists []. repeat split. intros j x Hj. discriminate.
  - pose proof (Hall 0%nat x eq_refl) as Hx.
    rewrite Nat.add_0_r in Hx.
    destruct (f x start) as [y | e] eqn:Ey; [| discriminate].
    destruct (IH (S start)) as (ys & Hys & Hlen & Hlook).
    { intros j x' Hj. replace (S start + j)%nat with (start + S j)%nat by lia.
      now apply Hall. }
    exists (y :: ys). simpl. rewrite Ey. simpl. rewrite Hys. simpl.
    repeat split; [now rewrite Hlen |].
    intros [| j] x' Hj; simpl in Hj.
    + injection Hj as <-. exists y. rewrite Nat.add_0_r. now split.
    + destruct (Hlook j x' Hj) as (y' & Hy' & Hf).
      exists y'. split; [exact Hy' |].
      now replace (start + S j)%nat with (S start + j)%nat by lia.
Qed.

Lemma map_indexed_throw {A B} (f : A -> nat -> Exn B) (xs : list A)
    (start : nat) (e : JsError) :
  (forall x i, is_ok (f x i) = false -> f x i = Throw e) ->
  existsb (fun x => negb (is_ok (f x 0))) xs = true ->
  (forall x i j, is_ok (f x i) = is_ok (f x j)) ->
  map_indexed f xs start = Throw e.
Proof.
  intros Herr Hex Hidx. revert start.
  induction xs as [| x xs IH]; intros start; [discriminate |].
  simpl in *. destruct (f x start) as [y | e'] eqn:Ey.
  - simpl. rewrite IH; [reflexivity |].
    rewrite (Hidx x 0%nat start), Ey in Hex. exact Hex.
  - simpl. specialize (Herr x start). rewrite Ey in Herr.
    specialize (Herr eq_refl). now injection Herr as ->.
Qed.

Lemma normalizeHolding_ok (h : JsValue) (index : nat) :
  is_ok (normalizeHolding h index) = holding_like h.
Proof.
  unfold holding_like. destruct (non_nullish h) eqn:Hr.
  - rewrite (normalizeHolding_steps h index Hr).
    rewrite <- !(ToNumber_ok StringToNumber NumberToString).
    destruct (symbol_source h); try reflexivity.
    cbn [call_toUpperCase is_string andb mbind Exn_bind].
    destruct (Number (amount_source h)); [| reflexivity].
    destruct (Number (apy_source h)); [| reflexivity].
    destruct (Number (value_usd_source h)); reflexivity.
  - now rewrite normalizeHolding_unreadable.
Qed.

Lemma normalizeHolding_error (h : JsValue) (index : nat) :
  is_ok (normalizeHolding h index) = false ->
  normalizeHolding h index = Throw TypeError.
Proof.
  destruct (non_nullish h) eqn:Hr.
  - rewrite (normalizeHolding_steps h index Hr).
    destruct (symbol_source h); try (intros _; reflexivity).
    cbn [call_toUpperCase mbind Exn_bind].
    destruct (convertible (amount_source h)) eqn:Ha.
    + destruct (ToNumber_convertible StringToNumber NumberToString _ Ha)
        as (a & ->).
      destruct (convertible (apy_source h)) eqn:Hp.
      * destruct (ToNumber_convertible StringToNumber NumberToString _ Hp)
          as (p & ->).
        destruct (convertible (value_usd_source h)) eqn:Hu.
        -- destruct (ToNumber_convertible StringToNumber NumberToString _ Hu)
             as (u & ->).
           discriminate.
        -- now rewrite (ToNumber_error StringToNumber NumberToString _ Hu).
      * now rewrite (ToNumber_error StringToNumber NumberToString _ Hp).
    + now rewrite (ToNumber_error StringToNumber NumberToString _ Ha).
  - intros _. now apply normalizeHolding_unreadable.
Qed.

(** C3, as the code has it.  For an array whose elements can all be
    normalised (none is [undefined] or [null], each symbol is a string when
    it is truthy, and the values given to [Number] have a number form)
    [normalizeHoldings] returns a list of the same length whose element at
    index [i] has, for the input element [h]: as [id] the [id] of [h] when
    it is not [undefined] (so also 0) and [i] otherwise; as [protocol_name]
    the first truthy one of [protocol_name], [protocol] and [provider], and
    ['Unknown'] when none is; as [token_symbol] the upper-cased first truthy
    one of [token_symbol] and [symbol], the empty string upper-cased when
    none is; as [amount] the number [Number(amount ?? balance ?? 0)], and
    likewise [apy] and [value_usd].  For an array with an element that
    cannot be normalised it throws a TypeError.  For an input that is not an
    array it returns the empty list. *)
Theorem normalizeHoldings_spec (holdings : JsValue) :
  (forall elems, holdings = JArr elems ->
     forallb holding_like elems = true ->
     exists rs,
       normalizeHoldings holdings = Ok rs /\
       length rs = length elems /\
       forall i h, elems !! i = Some h ->
         exists r sym,
           rs !! i = Some r /\
           id r = (if defined (field h "id") then field h "id"
                   else JNum (Number_of_nat i)) /\
           protocol_name r =
             first_such truthy
               [field h "protocol_name"; field h "protocol"; field h "provider"]
               (JStr "Unknown") /\
           first_such truthy [field h "token_symbol"; field h "symbol"]
             (JStr "") = JStr sym /\
           token_symbol r = toUpperCase sym /\
           Number (first_such non_nullish
                     [field h "amount"; field h "balance"]
                     (JNum (Zero false))) = Ok (amount r) /\
           Number (first_such non_nullish [field h "apy"] (JNum (Zero false))) =
             Ok (apy r) /\
           Number (first_such non_nullish [field h "value_usd"]
                     (JNum (Zero false))) = Ok (value_usd r)) /\
  (forall elems, holdings = JArr elems ->
     forallb holding_like elems = false ->
     normalizeHoldings holdings = Throw TypeError) /\
  ((forall elems, holdings <> JArr elems) ->
   normalizeHoldings holdings = Ok []).
Proof.
  split; [| split].
  - intros elems -> Hall. simpl.
    rewrite forallb_forall in Hall.
    destruct (map_indexed_ok normalizeHolding elems 0) as (rs & Hrs & Hlen & Hlook).
    { intros j x Hj. rewrite normalizeHolding_ok. apply Hall.
      apply list_elem_of_In. eapply list_elem_of_lookup_2. exact Hj. }
    exists rs. split; [exact Hrs |]. split; [exact Hlen |].
    intros i h Hi. destruct (Hlook i h Hi) as (r & Hr & Hf). simpl in Hf.
    assert (holding_like h = true) as Hh.
    { apply Hall, list_elem_of_In. eapply list_elem_of_lookup_2. exact Hi. }
    unfold holding_like in Hh.
    apply andb_prop in Hh as [Hh Hcu]. apply andb_prop in Hh as [Hh Hcp].
    apply andb_prop in Hh as [Hh Hca]. apply andb_prop in Hh as [Hread Hstr].
    destruct (symbol_source h) as [| | | | sym | |] eqn:Hs; try discriminate.
    destruct (ToNumber_convertible StringToNumber NumberToString _ Hca)
      as (a & Ha).
    destruct (ToNumber_convertible StringToNumber NumberToString _ Hcp)
      as (p & Hp).
    destruct (ToNumber_convertible StringToNumber NumberToString _ Hcu)
      as (u & Hu).
    rewrite (normalizeHolding_readable h i sym a p u Hread Hs Ha Hp Hu) in Hf.
    injection Hf as <-.
    exists (normalized h i (toUpperCase sym) a p u), sym.
    split; [exact Hr |]. split; [reflexivity |]. split; [reflexivity |].
    split; [exact Hs |]. split; [reflexivity |].
    split; [exact Ha |]. split; [exact Hp | exact Hu].
  - intros elems -> Hex. simpl.
    apply map_indexed_throw.
    + apply normalizeHolding_error.
    + clear -Hex. induction elems as [| h elems IH]; [discriminate |].
      simpl in *. rewrite normalizeHolding_ok.
      destruct (holding_like h); simpl in *; [now apply IH | reflexivity].
    + intros x i j. now rewrite !normalizeHolding_ok.
  - intros Hnot. destruct holdings; try reflexivity.
    now destruct (Hnot elems).
Qed.

End NormalizeProperties.

Lemma normalizeHoldings_spec_witness :
  forallb holding_like sampleHoldings = true /\
  (forall S2N N2S upper, exists rs,
     NormalizeHoldings.normalizeHoldings S2N N2S upper (JArr sampleHoldings) =
       Ok rs /\
     length rs = 2%nat) /\
  (forall S2N N2S upper,
     NormalizeHoldings.normalizeHoldings S2N N2S upper (JStr "holdings") = Ok []).
Proof.
  split; [reflexivity |]. split.
  - intros S2N N2S upper.
    destruct (normalizeHoldings_spec S2N N2S upper (JArr sampleHoldings))
      as (H & _).
    destruct (H sampleHoldings eq_refl eq_refl) as (rs & Hrs & Hlen & _).
    exists rs. split; [exact Hrs | exact Hlen].
  - intros S2N N2S upper.
    destruct (normalizeHoldings_spec S2N N2S upper (JStr "holdings"))
      as (_ & _ & H).
    apply H. intros elems. discriminate.
Defined.

(** C3 as stated fails on four inputs.  An element whose [protocol_name]
    is defined but empty gets the next candidate, not its [protocol_name];
    an array with a [null] element, with an element whose symbol is a
    number, or with an element whose amount is an object with an own
    [toString] property makes the function throw instead of returning a
    list. *)
Lemma normalizeHoldings_counterexample :
  first_such defined
    [field emptyNameHolding "protocol_name"; field emptyNameHolding "protocol";
     field emptyNameHolding "provider"] (JStr "Unknown") = JStr "" /\
  (forall S2N N2S upper,
     NormalizeHoldings.normalizeHoldings S2N N2S upper (JArr [emptyNameHolding]) =
       Ok [ {| NormalizeHoldings.id := JNum (Zero false);
               NormalizeHoldings.protocol_name := JStr "Aave";
               NormalizeHoldings.token_symbol := upper "";
               NormalizeHoldings.amount := Zero false;
               NormalizeHoldings.apy := Zero false;
               NormalizeHoldings.value_usd := Zero false;
               NormalizeHoldings.last_updated := JNull |} ]) /\
  (forall S2N N2S upper,
     NormalizeHoldings.normalizeHoldings S2N N2S upper (JArr [JNull]) =
       Throw TypeError) /\
  (forall S2N N2S upper,
     NormalizeHoldings.normalizeHoldings S2N N2S upper
       (JArr [numericSymbolHolding]) = Throw TypeError) /\
  (forall S2N N2S upper,
     NormalizeHoldings.normalizeHoldings S2N N2S upper
       (JArr [hiddenToStringHolding]) = Throw TypeError).
Proof. repeat split. Qed.

(** ** Safe formatters *)

Section DigitStrings.

#[local] Open Scope list_scope.

Abbreviation all_digits := (Forall (fun c => is_digit c = true)).

Lemma all_digits_forallb (cs : list ascii) :
  all_digits cs -> forallb is_digit cs = true.
Proof. induction 1 as [| c cs Hc _ IH]; simpl; [| rewrite Hc]; auto. Qed.

Lemma span_digits_app (ds rest : list ascii) :
  all_digits ds ->
  match rest with [] => True | c :: _ => is_digit c = false end ->
  span_digits (ds ++ rest) = (ds, rest).
Proof.
  intros Hds Hrest. induction Hds as [| c ds Hc _ IH]; simpl.
  - destruct rest as [| c rest]; [reflexivity |]. simpl. now rewrite Hrest.
  - now rewrite Hc, IH.
Qed.

Lemma all_digits_uint (u : Decimal.uint) :
  all_digits (list_ascii_of_string (NilEmpty.string_of_uint u)).
Proof. induction u; simpl; constructor; auto. Qed.

Lemma digits_all (n : N) : all_digits (digits n).
Proof.
  unfold digits, NilZero.string_of_uint.
  destruct (N.to_uint n) eqn:E; try (rewrite <- E; apply all_digits_uint).
  repeat constructor.
Qed.

Lemma digits_nonempty (n : N) : digits n <> [].
Proof.
  unfold digits, NilZero.string_of_uint.
  destruct (N.to_uint n); simpl; discriminate.
Qed.

Lemma all_digits_zeros (k : nat) : all_digits (repeat "0"%char k).
Proof. induction k; simpl; constructor; auto. Qed.

Lemma repeat_zero_chars (k : nat) :
  list_ascii_of_string (repeat_string "0" k) = repeat "0"%char k.
Proof. induction k; simpl; [reflexivity | now f_equal]. Qed.

Lemma first_digit_not_minus (c : ascii) (cs : list ascii) :
  is_digit c = true ->
  match c :: cs with "-"%char :: rest => rest | _ => c :: cs end = c :: cs.
Proof.
  intros Hc. destruct c as [[] [] [] [] [] [] [] []]; try reflexivity;
    discriminate Hc.
Qed.

(** The shape of [point_digits]. *)
Lemma point_digits_shape (n : N) (f : nat) :
  (f = 0%nat /\ point_digits n f = digits n) \/
  (exists a b, point_digits n f = a ++ "."%char :: b /\
               a <> [] /\ all_digits a /\ all_digits b /\ length b = f).
Proof.
  unfold point_digits. destruct (Nat.eqb_spec f 0) as [-> | Hf]; [now left |].
  right.
  set (padded := if (length (digits n) <=? f)%nat
                 then repeat "0"%char (f + 1 - length (digits n)) ++ digits n
                 else digits n).
  assert (all_digits padded) as Hall.
  { subst padded. destruct (length (digits n) <=? f)%nat.
    - apply Forall_app. split; [apply all_digits_zeros | apply digits_all].
    - apply digits_all. }
  assert (f < length padded)%nat as Hlen.
  { subst padded. destruct (Nat.leb_spec (length (digits n)) f).
    - rewrite length_app, repeat_length. lia.
    - lia. }
  exists (take (length padded - f) padded), (drop (length padded - f) padded).
  repeat split.
  - intros Hnil. apply (f_equal length) in Hnil.
    rewrite length_take in Hnil. simpl in Hnil. lia.
  - now apply Forall_take.
  - now apply Forall_drop.
  - rewrite length_drop. lia.
Qed.

(** A signed [point_digits] numeral has exactly [f] fraction digits. *)
Lemma fraction_digits_point (neg : bool) (n : N) (f : nat) :
  fraction_digits ((if neg then "-" else "") +:+
                   string_of_list_ascii (point_digits n f)) = Some f.
Proof.
  assert (forall cs, cs <> [] -> all_digits cs ->
            match cs with "-"%char :: rest => rest | _ => cs end = cs) as Hminus.
  { intros [| c cs] Hne Hd; [congruence |].
    apply first_digit_not_minus. now inversion Hd. }
  assert (forall cs,
            list_ascii_of_string ((if neg then "-" else "") +:+
                                  string_of_list_ascii cs) =
            (if neg then ["-"%char] else []) ++ cs) as Hchars.
  { intros cs. rewrite <- (list_ascii_of_string_of_list_ascii cs) at 2.
    now destruct neg. }
  unfold fraction_digits. rewrite Hchars.
  assert (forall cs, cs <> [] ->
            (exists c cs', cs = c :: cs' /\ is_digit c = true) ->
            match (if neg then ["-"%char] else []) ++ cs with
            | "-"%char :: rest => rest
            | _ => (if neg then ["-"%char] else []) ++ cs
            end = cs) as Hstrip.
  { intros cs Hne (c & cs' & -> & Hc). destruct neg; simpl; [reflexivity |].
    now apply first_digit_not_minus. }
  destruct (point_digits_shape n f) as [[-> ->] | (a & b & -> & Ha & Hda & Hdb & Hb)].
  - pose proof (digits_nonempty n) as Hne. pose proof (digits_all n) as Hd.
    rewrite Hstrip.
    + rewrite <- (app_nil_r (digits n)).
      rewrite span_digits_app by (auto; exact I).
      destruct (digits n); [congruence | reflexivity].
    + exact Hne.
    + destruct (digits n) as [| c cs]; [congruence |].
      exists c, cs. split; [reflexivity | now inversion Hd].
  - rewrite Hstrip.
    + rewrite span_digits_app by (auto; reflexivity).
      destruct a; [congruence |].
      rewrite all_digits_forallb by assumption. now rewrite Hb.
    + destruct a; [congruence | discriminate].
    + destruct a as [| c a]; [congruence |].
      exists c, (a ++ "."%char :: b). split; [reflexivity | now inversion Hda].
Qed.

Lemma fraction_digits_zeros (d : nat) :
  fraction_digits ("0." +:+ repeat_string "0" d) = Some d.
Proof.
  unfold fraction_digits.
  change (list_ascii_of_string ("0." +:+ repeat_string "0" d))
    with ("0"%char :: "."%char :: list_ascii_of_string (repeat_string "0" d)).
  rewrite repeat_zero_chars.
  change (span_digits ("0"%char :: "."%char :: repeat "0"%char d))
    with (["0"%char], "."%char :: repeat "0"%char d).
  cbv iota beta.
  rewrite (all_digits_forallb _ (all_digits_zeros d)).
  now rewrite repeat_length.
Qed.

End DigitStrings.

Section FormatterProperties.

Import NormalizeHoldings.

Variable StringToNumber : string -> JsNumber.
Variable NumberToString : JsNumber -> string.
Variable formatUSD : JsNumber -> string.

Abbreviation safeToFixed :=
  (NormalizeHoldings.safeToFixed StringToNumber NumberToString).
Abbreviation safeCurrency :=
  (NormalizeHoldings.safeCurrency StringToNumber NumberToString formatUSD).
Abbreviation safePercent :=
  (NormalizeHoldings.safePercent StringToNumber NumberToString).

Lemma toFixed_in_range (x : JsNumber) (f : nat) :
  (f <= 100)%nat -> is_ok (toFixed NumberToString x f) = true.
Proof.
  intros Hf. unfold toFixed.
  destruct (Nat.ltb_spec 100 f); [lia |].
  destruct x as [| [] | | neg m e]; try reflexivity.
  now destruct (at_least_1e21 m e).
Qed.

Lemma toFixed_out_of_range (x : JsNumber) (f : nat) :
  (100 < f)%nat -> toFixed NumberToString x f = Throw RangeError.
Proof.
  intros Hf. unfold toFixed. destruct (Nat.ltb_spec 100 f); [reflexivity | lia].
Qed.

Lemma toFixed_positional (x : JsNumber) (f : nat) :
  (f <= 100)%nat -> positional x = true ->
  exists s, toFixed NumberToString x f = Ok s /\ fraction_digits s = Some f.
Proof.
  intros Hf Hx. unfold toFixed.
  destruct (Nat.ltb_spec 100 f); [lia |].
  destruct x as [| [] | neg0 | neg m e]; try discriminate Hx.
  - eexists. split; [reflexivity |].
    apply (fraction_digits_point false 0 f).
  - simpl in Hx. apply negb_true_iff in Hx. rewrite Hx.
    eexists. split; [reflexivity |]. apply fraction_digits_point.
Qed.

Lemma number_of_ok (v : JsValue) :
  is_ok (number_of StringToNumber NumberToString v) = convertible v.
Proof. unfold number_of. now rewrite ToNumber_ok, convertible_nullish. Qed.

(** C10, as the code has it.  [Number(v ?? 0)] throws a TypeError when [v]
    is an object with an own [toString] property, or an array with such an
    object inside, and then so do the three formatters; for every other
    plain-data value it returns a number.  When that number is NaN the
    formatters return their fallbacks for every [d]: ['0.'] followed by [d]
    zeros, ['$0.00'], and ['0.'] followed by [d] zeros and ['%'].  When
    there is a number [safeCurrency] does not throw, and for [d <= 100]
    neither do [safeToFixed] and [safePercent]; the string [safeToFixed]
    returns has exactly [d] fraction digits when the number is NaN or is
    finite and below [10^21] in magnitude.  For [d > 100] and a number that
    is not NaN, [safeToFixed] and [safePercent] throw a RangeError. *)
Theorem safe_formatters_spec (v : JsValue) (d : nat) :
  (number_of StringToNumber NumberToString v = Ok NaN ->
   safeToFixed v d = Ok ("0." +:+ repeat_string "0" d) /\
   fraction_digits ("0." +:+ repeat_string "0" d) = Some d /\
   safeCurrency v = Ok "$0.00" /\
   safePercent v d = Ok ("0." +:+ repeat_string "0" d +:+ "%")) /\
  is_ok (number_of StringToNumber NumberToString v) = convertible v /\
  (convertible v = true -> is_ok (safeCurrency v) = true) /\
  (convertible v = true -> (d <= 100)%nat ->
   is_ok (safeToFixed v d) = true /\ is_ok (safePercent v d) = true) /\
  (forall x, (d <= 100)%nat ->
   number_of StringToNumber NumberToString v = Ok x -> positional x = true ->
   exists s, safeToFixed v d = Ok s /\ fraction_digits s = Some d) /\
  (forall x, (100 < d)%nat ->
   number_of StringToNumber NumberToString v = Ok x -> isNaN x = false ->
   safeToFixed v d = Throw RangeError /\ safePercent v d = Throw RangeError) /\
  (convertible v = false ->
   safeToFixed v d = Throw TypeError /\
   safeCurrency v = Throw TypeError /\
   safePercent v d = Throw TypeError).
Proof.
  pose proof (number_of_ok v) as Hok.
  unfold NormalizeHoldings.safeToFixed, NormalizeHoldings.safeCurrency,
    NormalizeHoldings.safePercent.
  fold (number_of StringToNumber NumberToString v).
  split; [| split; [exact Hok | split; [| split; [| split; [| split]]]]].
  - intros ->. repeat split. apply fraction_digits_zeros.
  - intros Hc. rewrite Hc in Hok.
    destruct (number_of StringToNumber NumberToString v) as [x | e];
      [| discriminate].
    simpl. now destruct (isNaN x).
  - intros Hc Hd. rewrite Hc in Hok.
    destruct (number_of StringToNumber NumberToString v) as [x | e];
      [| discriminate].
    simpl. pose proof (toFixed_in_range x d Hd) as Hfix.
    destruct (isNaN x); [split; reflexivity |].
    split; [exact Hfix |].
    now destruct (toFixed NumberToString x d).
  - intros x Hd -> Hpos. simpl.
    destruct (isNaN x) eqn:Hnan.
    + destruct x; discriminate.
    + now apply toFixed_positional.
  - intros x Hd -> Hnan. simpl. rewrite Hnan.
    rewrite toFixed_out_of_range by exact Hd. now split.
  - intros Hc. unfold number_of.
    rewrite (ToNumber_error StringToNumber NumberToString _
               (eq_trans (convertible_nullish v) Hc)).
    repeat split.
Qed.

End FormatterProperties.

Lemma safe_formatters_spec_witness :
  (2 <= 100)%nat /\
  convertible (JNum near_1_005) = true /\
  (forall S2N N2S,
     number_of S2N N2S (JNum near_1_005) = Ok near_1_005 /\
     positional near_1_005 = true /\
     exists s,
       NormalizeHoldings.safeToFixed S2N N2S (JNum near_1_005) 2 = Ok s /\
       fraction_digits s = Some 2%nat) /\
  (forall S2N N2S USD,
     number_of S2N N2S JUndefined = Ok (Zero false) /\
     number_of S2N N2S (JNum NaN) = Ok NaN /\
     NormalizeHoldings.safeCurrency S2N N2S USD (JNum NaN) = Ok "$0.00").
Proof.
  split; [lia |]. split; [reflexivity |]. split.
  - intros S2N N2S. split; [reflexivity |]. split; [reflexivity |].
    destruct (safe_formatters_spec S2N N2S (fun _ => "") (JNum near_1_005) 2)
      as (_ & _ & _ & _ & H & _).
    apply (H near_1_005); [lia | reflexivity | reflexivity].
  - intros S2N N2S USD. split; [reflexivity |]. split; [reflexivity |].
    destruct (safe_formatters_spec S2N N2S USD (JNum NaN) 0) as (H & _).
    now destruct (H eq_refl) as (_ & _ & Hc & _).
Defined.

(** C10 as stated fails on three inputs: with more than 100 decimals
    [safeToFixed] (and [safePercent]) throws a RangeError for a number; for
    an infinite number the result has no fraction digits at all; and for an
    object with an own [toString] property the formatters throw a
    TypeError. *)
Lemma safe_formatters_counterexample :
  (forall S2N N2S,
     NormalizeHoldings.safeToFixed S2N N2S (JNum (Finite false 1 0)) 101 =
       Throw RangeError) /\
  (forall S2N N2S,
     NormalizeHoldings.safePercent S2N N2S (JNum (Finite false 1 0)) 101 =
       Throw RangeError) /\
  (forall S2N N2S,
     NormalizeHoldings.safeToFixed S2N N2S (JNum (Infinity false)) 2 =
       Ok "Infinity") /\
  fraction_digits "Infinity" = None /\
  (forall S2N N2S USD,
     NormalizeHoldings.safeCurrency S2N N2S USD hiddenToString =
       Throw TypeError /\
     NormalizeHoldings.safeToFixed S2N N2S hiddenToString 2 = Throw TypeError).
Proof. repeat split. Qed.

(** ** Reading balances *)

Section FetchProperties.

Import BalanceFetcher.

Variable unitsToNumber : Z -> Z -> Exn JsNumber.

Abbreviation getTokenBalances := (BalanceFetcher.getTokenBalances unitsToNumber).

Lemma fetchEth_result (provider : Provider) (holder : string) :
  fetchEth unitsToNumber provider holder =
    ([OpGetBalance holder], Ok (reported_eth unitsToNumber provider holder)).
Proof.
  unfold fetchEth, reported_eth, call, lift, eff_bind, eff_try, eff_ret.
  destruct (getBalance provider holder) as [wei | e]; [| reflexivity].
  destruct (unitsToNumber wei 18); reflexivity.
Qed.

Lemma fetchToken_result (provider : Provider) (holder symbol contract : string) :
  fetchToken unitsToNumber provider holder (symbol, contract) =
    (token_ops provider holder [(symbol, contract)],
     Ok (symbol, reported_token unitsToNumber provider holder contract)).
Proof.
  unfold fetchToken, reported_token, token_ops, all2, call, lift, eff_bind,
    eff_try, eff_ret.
  simpl.
  destruct (newContract provider contract) as [[] | e]; simpl; [| reflexivity].
  destruct (balanceOf provider contract holder) as [balance | e]; simpl;
    [| reflexivity].
  destruct (decimals provider contract) as [dec | e]; simpl; [| reflexivity].
  destruct (unitsToNumber balance dec); reflexivity.
Qed.

Lemma all_fetchToken (provider : Provider) (holder : string)
    (tokens : list (string * string)) :
  all (List.map (fetchToken unitsToNumber provider holder) tokens) =
    (token_ops provider holder tokens,
     Ok (token_results unitsToNumber provider holder tokens)).
Proof.
  induction tokens as [| [symbol contract] tokens IH]; [reflexivity |].
  cbn [List.map all]. rewrite IH, fetchToken_result.
  unfold token_ops. cbn [List.map concat fst snd mbind Exn_bind].
  now rewrite app_nil_r.
Qed.

Lemma getTokenBalances_connected (provider : Provider) (holder : string)
    (tokens : list (string * string)) :
  getTokenBalances (Ethereum (Ok provider)) holder tokens =
    (OpGetBalance holder :: token_ops provider holder tokens,
     Ok (foldl add_result (<["ETH" := reported_eth unitsToNumber provider holder]> ∅)
           (token_results unitsToNumber provider holder tokens))).
Proof.
  unfold BalanceFetcher.getTokenBalances, lift, eff_bind at 1.
  rewrite fetchEth_result. unfold eff_bind at 1.
  rewrite all_fetchToken. unfold eff_bind, eff_ret, eff_try.
  simpl. now rewrite app_nil_r.
Qed.


Lemma add_result_storable (b : gmap string JsNumber) (k : string) (v : JsNumber) :
  storable k = true -> add_result b (k, v) = <[k := v]> b.
Proof.
  unfold storable, add_result. simpl. now destruct (String.eqb k "__proto__").
Qed.

Lemma add_result_not_storable (b : gmap string JsNumber) (k : string)
    (v : JsNumber) :
  storable k = false -> add_result b (k, v) = b.
Proof.
  unfold storable, add_result. simpl. now destruct (String.eqb k "__proto__").
Qed.

Lemma storable_spec (k : string) : storable k = true <-> k <> "__proto__".
Proof.
  unfold storable. destruct (String.eqb_spec k "__proto__"); simpl; split;
    intros; congruence.
Qed.



Lemma token_results_keys (provider : Provider) (holder : string)
    (tokens : list (string * string)) :
  (token_results unitsToNumber provider holder tokens).*1 = tokens.*1.
Proof.
  unfold token_results. induction tokens as [| e tokens IH]; [reflexivity |].
  cbn [List.map]. rewrite !fmap_cons. now rewrite IH.
Qed.


End FetchProperties.

Lemma MAINNET_TOKENS_distinct : NoDup BalanceFetcher.MAINNET_TOKENS.*1.
Proof. apply (bool_decide_unpack _). vm_compute. reflexivity. Qed.



(** ** Numbers: the expiry test on integers *)

Section NumberProperties.

#[local] Open Scope Z_scope.

Lemma exact_value_of_Z (z : Z) : exact_value (Number_of_Z z) = Some (z, 0).
Proof. now destruct z. Qed.

Lemma js_sub_integers (a b : Z) :
  js_sub (Number_of_Z a) (Number_of_Z b) = round_to_double (a - b) 0.
Proof.
  unfold js_sub. rewrite !exact_value_of_Z.
  change (Z.min 0 0) with 0. change (2 ^ (0 - 0)) with 1.
  rewrite !Z.mul_1_r.
  destruct (Z.eqb_spec a 0) as [-> | Ha]; [| reflexivity].
  destruct (Z.eqb_spec b 0) as [-> | Hb]; reflexivity.
Qed.

Lemma js_lt_finite (neg : bool) (m e d : Z) :
  0 < m -> 0 <= e -> 0 < d ->
  js_lt (Finite neg (Z.to_pos m) e) (Number_of_Z d) =
    ((if neg then - m else m) * 2 ^ e <? d).
Proof.
  intros Hm He Hd. unfold js_lt. rewrite exact_value_of_Z.
  cbn [exact_value]. rewrite Z.min_r by lia.
  rewrite !Z.sub_0_r. change (2 ^ 0) with 1. rewrite Z.mul_1_r.
  destruct neg.
  - now rewrite <- Pos2Z.opp_pos, Z2Pos.id by lia.
  - now rewrite Z2Pos.id by lia.
Qed.

Lemma js_lt_infinity (neg : bool) (d : Z) :
  0 < d -> js_lt (Infinity neg) (Number_of_Z d) = neg.
Proof. intros Hd. destruct d; try lia. reflexivity. Qed.

Lemma js_lt_finite_or_infinity (neg : bool) (m e d : Z) :
  0 < m -> 0 <= e -> 0 < d -> d <= m * 2 ^ e ->
  js_lt (finite_or_infinity neg m e) (Number_of_Z d) = neg.
Proof.
  intros Hm He Hd Hle. unfold finite_or_infinity.
  destruct (1024 <? bit_length m + e).
  - now apply js_lt_infinity.
  - rewrite js_lt_finite by assumption.
    assert (0 < 2 ^ e) by (apply Z.pow_pos_nonneg; lia).
    destruct neg; [apply Z.ltb_lt; nia | apply Z.ltb_ge; lia].
Qed.

(** Rounding a difference of integers does not move it across a threshold
    below [2^52]. *)
Lemma round_integer_lt (z d : Z) :
  0 < d <= 2 ^ 52 ->
  js_lt (round_to_double z 0) (Number_of_Z d) = (z <? d).
Proof.
  intros [Hd Hd52]. unfold round_to_double.
  destruct (Z.eqb_spec z 0) as [-> | Hz].
  - destruct d; try lia. reflexivity.
  - assert (0 < Z.abs z) as Hm by lia.
    pose proof (Z.log2_spec (Z.abs z) Hm) as [Hlo Hhi].
    pose proof (Z.log2_nonneg (Z.abs z)) as Hlog.
    unfold bit_length.
    destruct (Z.leb_spec (Z.log2 (Z.abs z) + 1 - 53) 0) as [Hsmall | Hlarge].
    + unfold finite_or_infinity, bit_length.
      destruct (Z.ltb_spec 1024 (Z.log2 (Z.abs z) + 1 + 0)); [lia |].
      rewrite js_lt_finite by lia.
      change (2 ^ 0) with 1. rewrite Z.mul_1_r.
      destruct (Z.ltb_spec z 0); f_equal; lia.
    + set (shift := Z.log2 (Z.abs z) + 1 - 53) in *.
      assert (0 < 2 ^ shift) as Hpow by (apply Z.pow_pos_nonneg; lia).
      assert (2 ^ 52 <= Z.abs z / 2 ^ shift) as Hq.
      { apply Z.div_le_lower_bound; [lia |].
        rewrite <- Z.pow_add_r by lia.
        replace (shift + 52) with (Z.log2 (Z.abs z)) by lia. exact Hlo. }
      assert (2 ^ 53 <= Z.abs z) as Hbig.
      { eapply Z.le_trans; [| exact Hlo]. apply Z.pow_le_mono_r; lia. }
      match goal with
      | |- context [finite_or_infinity _ ?q _] =>
          assert (2 ^ 52 <= q) as Hq'
            by (destruct (_ || _); lia)
      end.
      rewrite js_lt_finite_or_infinity by (try lia; nia).
      destruct (Z.ltb_spec z 0) as [Hneg | Hpos]; symmetry;
        [apply Z.ltb_lt | apply Z.ltb_ge]; lia.
Qed.

Lemma fresh_integers (now stamp : Z) :
  js_lt (js_sub (Number_of_Z now) (Number_of_Z stamp))
    (Number_of_Z BalanceFetcher.CACHE_DURATION) =
    (now - stamp <? BalanceFetcher.CACHE_DURATION).
Proof.
  rewrite js_sub_integers. apply round_integer_lt.
  unfold BalanceFetcher.CACHE_DURATION. lia.
Qed.

End NumberProperties.

(** ** The balance cache *)

Section CacheProperties.

Import BalanceFetcher.

Variable StringToNumber : string -> JsNumber.
Variable NumberToString : JsNumber -> string.
Variable toLowerCase : string -> string.

Abbreviation getCachedBalances :=
  (BalanceFetcher.getCachedBalances StringToNumber NumberToString toLowerCase).

Lemma json_number_exact (b : list (string * JsNumber)) :
  Forall (fun p => json_exact p.2 = true) b ->
  balances_json b = balances_value b.
Proof.
  intros Hb. unfold balances_json, balances_value. f_equal.
  induction Hb as [| [k n] b Hn _ IH]; [reflexivity |].
  cbn [List.map]. rewrite IH. f_equal. f_equal.
  destruct n as [| | [] |]; simpl in *; congruence.
Qed.

(** Reading a storage whose cache entry is JSON. *)
Lemma getCachedBalances_entry (items : gmap string StoredText) (full : bool)
    (v : JsValue) (now : Z) (addr : string) :
  items !! BALANCE_CACHE_KEY = Some (Json v) ->
  getCachedBalances (Storage items full) now addr =
    try_catch
      (data_address ← get_field v "address";
       lowered ← call_toLowerCase toLowerCase data_address;
       if String.eqb lowered (toLowerCase addr) then
         data_timestamp ← get_field v "timestamp";
         stamp ← ToNumber StringToNumber NumberToString data_timestamp;
         if js_lt (js_sub (Number_of_Z now) stamp) (Number_of_Z CACHE_DURATION)
         then get_field v "balances"
         else Ok JNull
       else Ok JNull)
      (fun _ => Ok JNull).
Proof.
  intros Hitem. unfold BalanceFetcher.getCachedBalances, getItem.
  cbn [mbind Exn_bind]. rewrite Hitem. reflexivity.
Qed.

(** Reading a storage without a cache entry that parses. *)
Lemma getCachedBalances_absent (ls : LocalStorage) (now : Z) (addr : string) :
  ls = Unavailable \/
  (exists items full, ls = Storage items full /\
     (items !! BALANCE_CACHE_KEY = None \/
      exists text, items !! BALANCE_CACHE_KEY = Some (Malformed text))) ->
  getCachedBalances ls now addr = Ok JNull.
Proof.
  intros [-> | (items & full & -> & [Hnone | (text & Hbad)])];
    [reflexivity | |];
    unfold BalanceFetcher.getCachedBalances, getItem; cbn [mbind Exn_bind].
  - now rewrite Hnone.
  - rewrite Hbad. simpl. now destruct (String.eqb text "").
Qed.

(** Reading an entry that [cacheBalances] wrote. *)
Lemma getCachedBalances_written (items : gmap string StoredText)
    (full : bool) (a : string) (b : list (string * JsNumber)) (t1 now : Z)
    (addr : string) :
  items !! BALANCE_CACHE_KEY =
    Some (JSON_stringify {| address := a; balances := b; timestamp := t1 |}) ->
  getCachedBalances (Storage items full) now addr =
    if same_ignoring_case toLowerCase a addr
       && (now - t1 <? CACHE_DURATION)%Z
    then Ok (balances_json b)
    else Ok JNull.
Proof.
  intros Hitem. rewrite (getCachedBalances_entry _ _ _ _ _ Hitem).
  cbn [get_field assoc address balances timestamp call_toLowerCase
       mbind Exn_bind String.eqb Ascii.eqb Bool.eqb].
  unfold same_ignoring_case.
  destruct (String.eqb (toLowerCase a) (toLowerCase addr)); [| reflexivity].
  assert (json_number (Number_of_Z t1) = JNum (Number_of_Z t1)) as ->
    by now destruct t1.
  cbn [ToNumber mbind Exn_bind andb]. rewrite fresh_integers.
  now destruct (now - t1 <? CACHE_DURATION)%Z.
Qed.

(** C8, as the code has it.  [cacheBalances] never throws; when the write
    fails (no localStorage, or the quota is used up) the storage is left as
    it was.  When the write succeeds, a later [getCachedBalances(a2)]
    returns the balances as JSON keeps them (a finite number unchanged,
    [NaN] and the infinities as [null], negative zero as 0: so exactly [b]
    when every balance is finite and none is negative zero) whenever the
    lower-cased [a2] equals the lower-cased [a] and fewer than
    [CACHE_DURATION] = 300000 ms have elapsed, and [null] whenever the
    lower-cased addresses differ or at least 300000 ms have elapsed.  It
    also returns [null] when there is no localStorage, no cache entry, or an
    entry that does not parse. *)
Theorem balance_cache_spec (ls : LocalStorage) (a a2 : string)
    (b : list (string * JsNumber)) (t1 t2 : Z) :
  CACHE_DURATION = 300000%Z /\
  exists ls',
    cacheBalances ls t1 a b = Ok ls' /\
    ((ls = Unavailable \/ exists items, ls = Storage items true) -> ls' = ls) /\
    (forall items, ls = Storage items false ->
       (same_ignoring_case toLowerCase a a2 = true ->
        (t2 - t1 < CACHE_DURATION)%Z ->
        getCachedBalances ls' t2 a2 = Ok (balances_json b)) /\
       (Forall (fun p => json_exact p.2 = true) b ->
        balances_json b = balances_value b) /\
       (same_ignoring_case toLowerCase a a2 = false \/
        (CACHE_DURATION <= t2 - t1)%Z ->
        getCachedBalances ls' t2 a2 = Ok JNull)) /\
    (ls = Unavailable \/
     (exists items full, ls = Storage items full /\
        (items !! BALANCE_CACHE_KEY = None \/
         exists text, items !! BALANCE_CACHE_KEY = Some (Malformed text))) ->
     getCachedBalances ls t2 a2 = Ok JNull).
Proof.
  split; [reflexivity |].
  pose proof (getCachedBalances_absent ls t2 a2) as Habsent.
  destruct ls as [| items [|]].
  - exists Unavailable. repeat split; try assumption; intros; discriminate.
  - exists (Storage items true).
    repeat split; try assumption; intros; discriminate.
  - exists (Storage (<[BALANCE_CACHE_KEY :=
              JSON_stringify {| address := a; balances := b; timestamp := t1 |}]>
              items) false).
    split; [reflexivity |]. split.
    { intros [H | (items' & H)]; discriminate H. }
    split; [| exact Habsent].
    intros items' _.
    rewrite (getCachedBalances_written _ false a b t1 t2 a2
               (lookup_insert_eq _ _ _)).
    split; [| split].
    + intros -> Ht. apply Z.ltb_lt in Ht. now rewrite Ht.
    + apply json_number_exact.
    + intros [-> | Ht]; [reflexivity |].
      apply Z.ltb_ge in Ht. rewrite Ht. now rewrite andb_false_r.
Qed.

End CacheProperties.

Lemma balance_cache_spec_witness :
  same_ignoring_case asciiLowerCase "0xAbCdEf" "0xabcdeF" = true /\
  (1000 - 0 < BalanceFetcher.CACHE_DURATION)%Z /\
  Forall (fun p => json_exact p.2 = true) sampleBalances /\
  forall S2N N2S, exists ls',
    BalanceFetcher.cacheBalances emptyStorage 0 "0xAbCdEf" sampleBalances =
      Ok ls' /\
    BalanceFetcher.getCachedBalances S2N N2S asciiLowerCase ls' 1000 "0xabcdeF" =
      Ok (balances_value sampleBalances).
Proof.
  assert (Forall (fun p => json_exact p.2 = true) sampleBalances) as Hex
    by (repeat constructor).
  split; [reflexivity |]. split; [reflexivity |]. split; [exact Hex |].
  intros S2N N2S.
  destruct (balance_cache_spec S2N N2S asciiLowerCase emptyStorage
              "0xAbCdEf" "0xabcdeF" sampleBalances 0 1000)
    as (_ & ls' & Hput & _ & Hok & _).
  exists ls'. split; [exact Hput |].
  destruct (Hok ∅ eq_refl) as (Hget & Hexact & _).
  rewrite <- (Hexact Hex). apply Hget; reflexivity.
Defined.

(** C8 as stated fails on two inputs.  A balance that is [NaN] comes back
    as [null], not as the balance that was cached; and when the storage
    quota is used up nothing is cached, so the read returns [null] although
    the address matches and no time has passed. *)
Lemma balance_cache_counterexample :
  (forall S2N N2S lower, exists ls',
     BalanceFetcher.cacheBalances emptyStorage 0 "0xAbCdEf" nanBalances =
       Ok ls' /\
     BalanceFetcher.getCachedBalances S2N N2S lower ls' 1000 "0xAbCdEf" =
       Ok (JObj [("ETH", JNull)])) /\
  balances_value nanBalances = JObj [("ETH", JNum NaN)] /\
  BalanceFetcher.cacheBalances fullStorage 0 "0xAbCdEf" sampleBalances =
    Ok fullStorage /\
  (forall S2N N2S lower,
     BalanceFetcher.getCachedBalances S2N N2S lower fullStorage 0 "0xAbCdEf" =
       Ok JNull).
Proof.
  split; [| repeat split].
  intros S2N N2S lower. eexists. split; [reflexivity |].
  rewrite (getCachedBalances_written S2N N2S lower _ false "0xAbCdEf"
             nanBalances 0 1000 "0xAbCdEf" (lookup_insert_eq _ _ _)).
  unfold same_ignoring_case. now rewrite String.eqb_refl.
Qed.

(** * Further properties of the code *)

#[local] Set Warnings "-clear-no-such-hyp".

(** ** The store: composing actions *)

Section StoreComposition.

Import Store.

Lemma clearWallet_absorbs (a : Action) (s : AppState) :
  session_action a = true -> clearWallet (dispatch a s) = clearWallet s.
Proof.
  destruct a; try discriminate; intros _; simpl; try reflexivity.
  - destruct m; reflexivity.
  - unfold setWalletAddress. destruct (truthy_address address); reflexivity.
Qed.

(** X1: disconnecting erases the wallet session.  Whatever session actions
    (mode switches, wallet addresses, balances, network, loading flag,
    earlier disconnects) have run, [clearWallet()] afterwards leaves the
    state [clearWallet()] would have left right away; that state is in demo
    mode with no wallet address, reports the demo wallet as active, and
    keeps the risk preference and the hydration flag. *)
Theorem clearWallet_after_session (acts : list Action) (s : AppState) :
  forallb session_action acts = true ->
  clearWallet (run acts s) = clearWallet s /\
  isDemoMode (clearWallet (run acts s)) = true /\
  walletAddress (clearWallet (run acts s)) = None /\
  getActiveWallet (clearWallet (run acts s)) = demoWallet s /\
  riskPreference (clearWallet (run acts s)) = riskPreference s /\
  _hasHydrated (clearWallet (run acts s)) = _hasHydrated s.
Proof.
  intros Hacts.
  assert (clearWallet (run acts s) = clearWallet s) as ->.
  { unfold run. revert s. induction acts as [| a acts IH]; intros s;
      [reflexivity |].
    simpl in *. apply andb_prop in Hacts as [Ha Hacts].
    rewrite IH by exact Hacts. now apply clearWallet_absorbs. }
  repeat split.
Qed.

Lemma clearWallet_after_session_witness :
  forallb session_action
    [SetWalletAddress (Some "0x52908400098527886E0F7030069857D2E4169EE7");
     SetLoadingBalances true; SetMode demo; SetMode wallet] = true /\
  clearWallet
    (run [SetWalletAddress (Some "0x52908400098527886E0F7030069857D2E4169EE7");
          SetLoadingBalances true; SetMode demo; SetMode wallet] initialState) =
    clearWallet initialState.
Proof.
  split; [reflexivity |].
  apply (clearWallet_after_session
           [SetWalletAddress (Some "0x52908400098527886E0F7030069857D2E4169EE7");
            SetLoadingBalances true; SetMode demo; SetMode wallet]
           initialState eq_refl).
Defined.

(** X2: switching to demo mode hides the wallet address, it does not erase
    it.  [setMode] never changes [walletAddress]; in demo mode the active
    wallet is the demo wallet; and after switching to demo and back to
    wallet mode the active wallet and the connection status are what a
    direct switch to wallet mode gives, while the balances are empty and the
    network is Ethereum Mainnet. *)
Theorem setMode_demo_and_back (s : AppState) :
  (forall m, walletAddress (setMode m s) = walletAddress s) /\
  getActiveWallet (setMode demo s) = demoWallet s /\
  getActiveWallet (setMode wallet (setMode demo s)) =
    getActiveWallet (setMode wallet s) /\
  isConnected (setMode wallet (setMode demo s)) =
    isConnected (setMode wallet s) /\
  tokenBalances (setMode wallet (setMode demo s)) = ∅ /\
  network (setMode wallet (setMode demo s)) =
    Some {| chainId := 1; name := "Ethereum Mainnet" |}.
Proof.
  split; [intros []; reflexivity |]. repeat split.
Qed.

(** X3: connecting in either order gives the same state.  The components
    call [setWalletAddress(a); setMode('wallet')] and
    [setMode('wallet'); setWalletAddress(a)]; for every [a] (also [null]
    and the empty string) both end in the same state, in wallet mode with
    [walletAddress = a]; and when [a] is a non-empty string,
    [setWalletAddress(a)] alone already gives that state. *)
Theorem connect_order_irrelevant (a : option string) (s : AppState) :
  setMode wallet (setWalletAddress a s) = setWalletAddress a (setMode wallet s) /\
  mode (setMode wallet (setWalletAddress a s)) = wallet /\
  walletAddress (setMode wallet (setWalletAddress a s)) = a /\
  (truthy_address a = true ->
   setWalletAddress a s = setMode wallet (setWalletAddress a s)).
Proof.
  unfold setWalletAddress.
  destruct (truthy_address a) eqn:Ha; repeat split; intros; try reflexivity;
    discriminate.
Qed.

Lemma connect_order_irrelevant_witness :
  truthy_address (Some "0x52908400098527886E0F7030069857D2E4169EE7") = true /\
  connectedState = setMode wallet connectedState.
Proof.
  split; [reflexivity |].
  destruct (connect_order_irrelevant
              (Some "0x52908400098527886E0F7030069857D2E4169EE7") initialState)
    as (_ & _ & _ & H).
  exact (H eq_refl).
Defined.

End StoreComposition.

(** ** The API client and the store *)

Section ApiComposition.

Import Store.

Variable Portfolio : Type.
Variable client_get : string -> Exn Portfolio.

Lemma store_getActiveWallet_nonempty (s : AppState) :
  reachable s -> getActiveWallet s <> "".
Proof.
  intros Hs. pose proof (reachable_demoWallet s Hs) as Hd.
  unfold getActiveWallet. destruct (mode s).
  - rewrite Hd. apply DEMO_WALLET_nonempty.
  - destruct (walletAddress s) as [a |].
    + destruct (String.eqb_spec a "") as [-> | Hne].
      * rewrite address_or_falsy by (now right). rewrite Hd.
        apply DEMO_WALLET_nonempty.
      * now rewrite address_or_truthy.
    + rewrite address_or_falsy by (now left). rewrite Hd.
      apply DEMO_WALLET_nonempty.
Qed.

(** X4: the API client and the store agree on the active wallet.  On the
    client [getActiveWallet()] of api.ts returns what the store's getter
    returns, in every state, and [getMode()] returns the store's mode; on
    the server they answer with the demo wallet and demo mode, which is
    what the store's getter returns for every state of the store in demo
    mode.  Neither ever returns the empty string for a state of the
    store. *)
Theorem api_getActiveWallet_agrees (s : AppState) :
  Api.getActiveWallet true s = getActiveWallet s /\
  Api.getMode true s = mode s /\
  (reachable s ->
   Api.getActiveWallet false s = demoWallet s /\
   Api.getActiveWallet false s = getActiveWallet (setMode (Api.getMode false s) s) /\
   Api.getActiveWallet true s <> "" /\
   Api.getActiveWallet false s <> "").
Proof.
  assert (Api.getActiveWallet true s = getActiveWallet s) as Hagree.
  { unfold Api.getActiveWallet, getActiveWallet. simpl. now destruct (mode s). }
  split; [exact Hagree |]. split; [reflexivity |].
  intros Hs. pose proof (reachable_demoWallet s Hs) as Hd.
  assert (Api.getActiveWallet false s = demoWallet s) as Hserver.
  { rewrite Hd. reflexivity. }
  split; [exact Hserver |]. split; [rewrite Hserver; reflexivity |].
  split.
  - rewrite Hagree. now apply store_getActiveWallet_nonempty.
  - rewrite Hserver, Hd. apply DEMO_WALLET_nonempty.
Qed.

(** X5: [getPortfolio()] is the portfolio endpoint chosen by the mode.  On
    the client it sends exactly one request: in demo mode the one
    [api.portfolio.demo()] sends, in wallet mode the one
    [api.portfolio.get(getActiveWallet())] sends, with the same outcome; on
    the server it sends nothing and throws. *)
Theorem getPortfolio_by_mode (s : AppState) :
  Api.getPortfolio Portfolio client_get true s =
    match Api.getMode true s with
    | demo => Api.portfolio_demo Portfolio client_get
    | wallet =>
        Api.portfolio_get Portfolio client_get (Api.getActiveWallet true s)
    end /\
  length (Api.getPortfolio Portfolio client_get true s).1 = 1%nat /\
  (Api.getPortfolio Portfolio client_get false s).1 = [] /\
  is_ok (Api.getPortfolio Portfolio client_get false s).2 = false.
Proof.
  unfold Api.getPortfolio, Api.getMode, Api.getActiveWallet,
    Api.portfolio_demo, Api.portfolio_get.
  simpl. destruct (mode s); repeat split.
Qed.

End ApiComposition.

Lemma api_getActiveWallet_agrees_witness :
  Store.reachable Store.connectedState /\
  Api.getActiveWallet true Store.connectedState =
    "0x52908400098527886E0F7030069857D2E4169EE7" /\
  Api.getActiveWallet false Store.connectedState =
    Store.demoWallet Store.connectedState.
Proof.
  assert (Store.reachable Store.connectedState) as Hr
    by (apply Store.reach_step, Store.reach_init).
  destruct (api_getActiveWallet_agrees Store.connectedState)
    as (Hc & _ & Hs).
  split; [exact Hr |]. split.
  - rewrite Hc. reflexivity.
  - now destruct (Hs Hr) as (H & _).
Defined.

(** ** Network names *)

Section NetworkProperties.

Import BalanceFetcher.

Variable NumberToString : JsNumber -> string.
Variable getNetwork : Provider -> Exn JsNumber.

Lemma append_paren_inj (s1 s2 : string) :
  s1 +:+ ")" = s2 +:+ ")" -> s1 = s2.
Proof.
  revert s2. induction s1 as [| c1 r1 IH]; intros [| c2 r2] H; simpl in H.
  - reflexivity.
  - injection H as <- H. destruct r2; discriminate.
  - injection H as <- H. destruct r1; discriminate.
  - injection H as <- H. f_equal. now apply IH.
Qed.

Ltac split_keys :=
  repeat match goal with
    | |- context [String.eqb ?k ?lit] =>
        destruct (String.eqb_spec k lit); [subst |]
    | H : context [String.eqb ?k ?lit] |- _ =>
        destruct (String.eqb_spec k lit); [subst |]
    end.

Lemma name_of_key_nonempty (key : string) : name_of_key key <> "".
Proof.
  unfold name_of_key, networks, table_lookup.
  split_keys; simpl; discriminate.
Qed.

Lemma name_of_key_inj (k1 k2 : string) :
  name_of_key k1 = name_of_key k2 -> k1 = k2.
Proof.
  unfold name_of_key, networks, table_lookup.
  destruct (String.eqb_spec k1 "1"); [subst |];
  [| destruct (String.eqb_spec k1 "5"); [subst |];
  [| destruct (String.eqb_spec k1 "11155111"); [subst |];
  [| destruct (String.eqb_spec k1 "137"); [subst |];
  [| destruct (String.eqb_spec k1 "80001"); [subst |];
  [| destruct (String.eqb_spec k1 "42161"); [subst |];
  [| destruct (String.eqb_spec k1 "10"); [subst |];
  [| destruct (String.eqb_spec k1 "8453"); [subst |]]]]]]]];
  (destruct (String.eqb_spec k2 "1"); [subst |];
  [| destruct (String.eqb_spec k2 "5"); [subst |];
  [| destruct (String.eqb_spec k2 "11155111"); [subst |];
  [| destruct (String.eqb_spec k2 "137"); [subst |];
  [| destruct (String.eqb_spec k2 "80001"); [subst |];
  [| destruct (String.eqb_spec k2 "42161"); [subst |];
  [| destruct (String.eqb_spec k2 "10"); [subst |];
  [| destruct (String.eqb_spec k2 "8453"); [subst |]]]]]]]]);
  simpl; intros H; try reflexivity; try discriminate H.
  injection H as H. now apply append_paren_inj.
Qed.

(** X6: a network name identifies its chain.  [getNetworkName] never
    returns the empty string, and two chain ids get the same name only when
    they are written the same (so the eight known chains and every unknown
    chain are told apart). *)
Theorem getNetworkName_identifies (c1 c2 : JsNumber) :
  getNetworkName NumberToString c1 <> "" /\
  (getNetworkName NumberToString c1 = getNetworkName NumberToString c2 ->
   NumberToString c1 = NumberToString c2).
Proof.
  split.
  - apply (name_of_key_nonempty (NumberToString c1)).
  - apply (name_of_key_inj (NumberToString c1) (NumberToString c2)).
Qed.

(** X7: [getNetworkInfo] never throws.  It returns [null] exactly when
    there is no provider, the provider cannot be set up, or the network
    lookup fails; otherwise it returns the chain id with the name
    [getNetworkName] gives it, which is not empty. *)
Theorem getNetworkInfo_spec (browser : Browser) :
  exists r,
    getNetworkInfo NumberToString getNetwork browser = Ok r /\
    (r = None <->
     browser = NoWindow \/ browser = NoEthereum \/
     (exists e, browser = Ethereum (Throw e)) \/
     (exists provider e, browser = Ethereum (Ok provider) /\
                         getNetwork provider = Throw e)) /\
    (forall info, r = Some info ->
       name info = getNetworkName NumberToString (chainId info) /\
       name info <> "" /\
       exists provider, browser = Ethereum (Ok provider) /\
                        getNetwork provider = Ok (chainId info)).
Proof.
  unfold getNetworkInfo.
  destruct browser as [| | [provider | e]]; simpl.
  - exists None. split; [reflexivity |]. split; [tauto | discriminate].
  - exists None. split; [reflexivity |]. split; [tauto | discriminate].
  - destruct (getNetwork provider) as [id | e] eqn:Hnet; simpl.
    + eexists. split; [reflexivity |]. split.
      * split; [discriminate |].
        intros [H | [H | [(e & H) | (p & e & H & Hf)]]]; try discriminate H.
        injection H as <-. congruence.
      * intros info [= <-]. simpl. split; [reflexivity |].
        split; [apply (name_of_key_nonempty (NumberToString id)) |].
        exists provider. now split.
    + exists None. split; [reflexivity |]. split; [| discriminate].
      split; [| reflexivity]. intros _. right. right. right.
      exists provider, e. now split.
  - exists None. split; [reflexivity |]. split; [| discriminate].
    split; [| reflexivity]. intros _. right. right. left. now exists e.
Qed.

End NetworkProperties.

Lemma getNetworkName_identifies_witness :
  BalanceFetcher.getNetworkName printNatural (Finite false 1 0) =
    BalanceFetcher.getNetworkName printNatural (Finite false 1 0) /\
  printNatural (Finite false 1 0) = "1" /\
  BalanceFetcher.getNetworkName printNatural (Finite false 1 0)
    <> BalanceFetcher.getNetworkName printNatural (Finite false 137 0).
Proof.
  split; [reflexivity |]. split.
  - apply (getNetworkName_identifies printNatural
             (Finite false 1 0) (Finite false 1 0)).
    reflexivity.
  - intros Heq.
    apply (getNetworkName_identifies printNatural) in Heq. discriminate Heq.
Defined.

(** ** The balance cache: one slot, read without case *)

Section CacheComposition.

Import BalanceFetcher.

Variable StringToNumber : string -> JsNumber.
Variable NumberToString : JsNumber -> string.
Variable toLowerCase : string -> string.

Abbreviation getCachedBalances :=
  (BalanceFetcher.getCachedBalances StringToNumber NumberToString toLowerCase).

Lemma get_field_field (v : JsValue) (k : string) (x : JsValue) :
  get_field v k = Ok x -> field v k = x.
Proof. destruct v; simpl; intros H; try discriminate H; congruence. Qed.

(** What a read returns: [null], or the [balances] of a stored value whose
    [address] is a string that matches. *)
Lemma getCachedBalances_cases (ls : LocalStorage) (now : Z) (addr : string) :
  getCachedBalances ls now addr = Ok JNull \/
  exists items full v a,
    ls = Storage items full /\
    items !! BALANCE_CACHE_KEY = Some (Json v) /\
    field v "address" = JStr a /\
    same_ignoring_case toLowerCase a addr = true /\
    getCachedBalances ls now addr = Ok (field v "balances").
Proof.
  destruct ls as [| items full]; [now left |].
  destruct (items !! BALANCE_CACHE_KEY) as [[text | v] |] eqn:Hitem.
  - left. apply getCachedBalances_absent. right. exists items, full.
    split; [reflexivity |]. right. now exists text.
  - rewrite (getCachedBalances_entry _ _ _ _ _ v now addr Hitem).
    destruct (get_field v "address") as [data_address |] eqn:Haddr;
      [| now left].
    apply get_field_field in Haddr.
    destruct data_address as [| | | | a | |]; try (now left).
    cbn [call_toLowerCase mbind Exn_bind].
    destruct (String.eqb (toLowerCase a) (toLowerCase addr)) eqn:Hsame;
      [| now left].
    destruct (get_field v "timestamp") as [data_timestamp |]; [| now left].
    cbn [mbind Exn_bind].
    destruct (ToNumber StringToNumber NumberToString data_timestamp)
      as [stamp |]; [| now left].
    cbn [mbind Exn_bind].
    destruct (js_lt (js_sub (Number_of_Z now) stamp) (Number_of_Z CACHE_DURATION));
      [| now left].
    destruct (get_field v "balances") as [data_balances |] eqn:Hbal;
      [| now left].
    apply get_field_field in Hbal. right.
    exists items, full, v, a. subst data_balances. now repeat split.
  - left. apply getCachedBalances_absent. right. exists items, full.
    split; [reflexivity |]. now left.
Qed.

(** X8: reading the cache, whatever the storage holds: no storage, no
    entry, text that is not JSON, or the JSON of any value.
    [getCachedBalances] never throws.  What it returns is [null] unless the
    entry is the JSON of a value whose [address] is a string with the same
    lower-cased form as the address asked for, and then it is [null] or
    whatever that value has as [balances] ([undefined] when it has none).
    It does not tell apart addresses with the same lower-cased form. *)
Theorem getCachedBalances_reads (ls : LocalStorage) (addr addr' : string)
    (now : Z) :
  (exists r,
     getCachedBalances ls now addr = Ok r /\
     (r = JNull \/
      exists items full v a,
        ls = Storage items full /\
        items !! BALANCE_CACHE_KEY = Some (Json v) /\
        field v "address" = JStr a /\
        same_ignoring_case toLowerCase a addr = true /\
        r = field v "balances")) /\
  (same_ignoring_case toLowerCase addr addr' = true ->
   getCachedBalances ls now addr = getCachedBalances ls now addr').
Proof.
  split.
  - destruct (getCachedBalances_cases ls now addr)
      as [Hnull | (items & full & v & a & Hls & Hitem & Haddr & Hsame & Hget)].
    + exists JNull. split; [exact Hnull | now left].
    + exists (field v "balances"). split; [exact Hget |]. right.
      now exists items, full, v, a.
  - unfold same_ignoring_case. intros H. apply String.eqb_eq in H.
    unfold BalanceFetcher.getCachedBalances. now rewrite H.
Qed.

(** X9: the cache has one slot and the last write wins.  After
    [cacheBalances(a1, b1)] and then [cacheBalances(a2, b2)] on a storage
    that accepts writes, the storage is what [cacheBalances(a2, b2)] alone
    would have left; so a read for [a1] returns [null] when the lower-cased
    [a1] and [a2] differ, however fresh the first entry is.  The writes
    leave every other key of the storage as it was. *)
Theorem cache_last_write_wins (items : gmap string StoredText)
    (a1 a2 : string) (b1 b2 : list (string * JsNumber)) (t1 t2 now : Z) :
  exists ls1 ls2 items2,
    cacheBalances (Storage items false) t1 a1 b1 = Ok ls1 /\
    cacheBalances ls1 t2 a2 b2 = Ok ls2 /\
    cacheBalances (Storage items false) t2 a2 b2 = Ok ls2 /\
    ls2 = Storage items2 false /\
    (forall key, key <> BALANCE_CACHE_KEY -> items2 !! key = items !! key) /\
    (same_ignoring_case toLowerCase a2 a1 = false ->
     getCachedBalances ls2 now a1 = Ok JNull).
Proof.
  set (entry1 := JSON_stringify
                   {| address := a1; balances := b1; timestamp := t1 |}).
  set (entry2 := JSON_stringify
                   {| address := a2; balances := b2; timestamp := t2 |}).
  exists (Storage (<[BALANCE_CACHE_KEY := entry1]> items) false),
         (Storage (<[BALANCE_CACHE_KEY := entry2]> items) false),
         (<[BALANCE_CACHE_KEY := entry2]> items).
  split; [reflexivity |].
  split; [unfold cacheBalances; simpl; now rewrite insert_insert_eq |].
  split; [reflexivity |].
  split; [reflexivity |]. split.
  - intros key Hkey. now rewrite lookup_insert_ne by congruence.
  - intros Hdiff. subst entry1 entry2.
    rewrite (getCachedBalances_written _ _ _ _ false a2 b2 t2 now a1
               (lookup_insert_eq _ _ _)).
    now rewrite Hdiff.
Qed.

(** X10: clearing the cache.  [clearBalanceCache] never throws.  When
    localStorage is there it removes the cache entry and nothing else, so
    every read afterwards returns [null], for every address and time; when
    localStorage is not there it changes nothing, and reads return [null]
    as well. *)
Theorem clearBalanceCache_clears (ls : LocalStorage) :
  exists ls',
    clearBalanceCache ls = Ok ls' /\
    (forall now addr, getCachedBalances ls' now addr = Ok JNull) /\
    (ls = Unavailable -> ls' = Unavailable) /\
    (forall items full, ls = Storage items full ->
       exists cleared,
         ls' = Storage cleared full /\
         cleared !! BALANCE_CACHE_KEY = None /\
         forall key, key <> BALANCE_CACHE_KEY -> cleared !! key = items !! key).
Proof.
  destruct ls as [| items full].
  - exists Unavailable. repeat split. intros; discriminate.
  - exists (Storage (delete BALANCE_CACHE_KEY items) full).
    split; [reflexivity |]. split; [| split; [discriminate |]].
    + intros now addr. unfold BalanceFetcher.getCachedBalances, getItem. simpl.
      now rewrite lookup_delete_eq.
    + intros items' full' [= <- <-]. eexists. split; [reflexivity |].
      split; [apply lookup_delete_eq |].
      intros key Hkey. now rewrite lookup_delete_ne by congruence.
Qed.

End CacheComposition.

Lemma getCachedBalances_reads_witness :
  same_ignoring_case asciiLowerCase "0xA" "0xa" = true /\
  forall S2N N2S,
    BalanceFetcher.getCachedBalances S2N N2S asciiLowerCase
      (BalanceFetcher.Storage
         {[ BalanceFetcher.BALANCE_CACHE_KEY := noBalancesEntry ]} false)
      1000 "0xA" = Ok JUndefined /\
    BalanceFetcher.getCachedBalances S2N N2S asciiLowerCase
      (BalanceFetcher.Storage
         {[ BalanceFetcher.BALANCE_CACHE_KEY := noBalancesEntry ]} false)
      1000 "0xa" = Ok JUndefined.
Proof.
  split; [reflexivity |]. intros S2N N2S.
  destruct (getCachedBalances_reads S2N N2S asciiLowerCase
              (BalanceFetcher.Storage
                 {[ BalanceFetcher.BALANCE_CACHE_KEY := noBalancesEntry ]} false)
              "0xA" "0xa" 1000) as [_ Hcase].
  split; [reflexivity |].
  rewrite <- (Hcase eq_refl). reflexivity.
Defined.

Lemma cache_last_write_wins_witness :
  same_ignoring_case asciiLowerCase "0xBBBB" "0xAAAA" = false /\
  forall S2N N2S, exists ls1 ls2,
    BalanceFetcher.cacheBalances emptyStorage 0 "0xAAAA" sampleBalances =
      Ok ls1 /\
    BalanceFetcher.cacheBalances ls1 10 "0xBBBB" nanBalances = Ok ls2 /\
    BalanceFetcher.getCachedBalances S2N N2S asciiLowerCase ls2 20 "0xAAAA" =
      Ok JNull.
Proof.
  split; [reflexivity |]. intros S2N N2S.
  destruct (cache_last_write_wins S2N N2S asciiLowerCase ∅ "0xAAAA" "0xBBBB"
              sampleBalances nanBalances 0 10 20)
    as (ls1 & ls2 & items2 & H1 & H2 & _ & _ & _ & Hmiss).
  exists ls1, ls2. split; [exact H1 |]. split; [exact H2 |].
  apply Hmiss. reflexivity.
Defined.

Lemma clearBalanceCache_clears_witness :
  exists ls ls',
    BalanceFetcher.cacheBalances emptyStorage 0 "0xAbCdEf" sampleBalances =
      Ok ls /\
    BalanceFetcher.getCachedBalances (fun _ => NaN) printNatural asciiLowerCase
      ls 5 "0xAbCdEf" = Ok (balances_value sampleBalances) /\
    BalanceFetcher.clearBalanceCache ls = Ok ls' /\
    BalanceFetcher.getCachedBalances (fun _ => NaN) printNatural asciiLowerCase
      ls' 5 "0xAbCdEf" = Ok JNull.
Proof.
  eexists. eexists. split; [reflexivity |]. split; [reflexivity |].
  match goal with
  | |- BalanceFetcher.clearBalanceCache ?ls = _ /\ _ =>
      destruct (clearBalanceCache_clears (fun _ => NaN) printNatural
                  asciiLowerCase ls)
        as (ls' & Hclear & Hnone & _)
  end.
  injection Hclear as <-. split; [reflexivity | apply Hnone].
Defined.

(** ** Reading balances: the keys of the result *)

Section FetchShape.

Import BalanceFetcher.

Variable unitsToNumber : Z -> Z -> Exn JsNumber.

Lemma dom_foldl_add_result (rs : list (string * JsNumber))
    (b : gmap string JsNumber) :
  dom (foldl add_result b rs) =
    dom b ∪ (list_to_set rs.*1 ∖ {[ "__proto__" ]}).
Proof.
  revert b. induction rs as [| [k v] rs IH]; intros b; simpl.
  - set_solver.
  - rewrite IH. destruct (storable k) eqn:Hk.
    + rewrite add_result_storable by exact Hk. rewrite dom_insert_L.
      apply storable_spec in Hk. set_solver.
    + rewrite add_result_not_storable by exact Hk.
      assert (k = "__proto__") as ->.
      { destruct (String.eqb_spec k "__proto__") as [-> | Hne]; [reflexivity |].
        apply storable_spec in Hne. congruence. }
      set_solver.
Qed.

(** X11: the keys of what [getTokenBalances] returns.  With a provider the
    result has exactly the keys ETH and the token symbols other than
    [__proto__], whatever the lookups answer; so it has [n + 1] entries for
    [n] tokens when the symbols are distinct and none is ETH or
    [__proto__]. *)
Theorem getTokenBalances_shape (provider : Provider) (holder : string)
    (tokens : list (string * string)) :
  exists b,
    (BalanceFetcher.getTokenBalances unitsToNumber (Ethereum (Ok provider))
       holder tokens).2 = Ok b /\
    dom b = {[ "ETH" ]} ∪ (list_to_set tokens.*1 ∖ {[ "__proto__" ]}) /\
    (NoDup tokens.*1 -> "ETH" ∉ tokens.*1 -> "__proto__" ∉ tokens.*1 ->
     size b = S (length tokens)).
Proof.
  rewrite getTokenBalances_connected.
  eexists. split; [reflexivity |].
  assert (dom (foldl add_result
                 (<["ETH" := reported_eth unitsToNumber provider holder]> ∅)
                 (token_results unitsToNumber provider holder tokens)) =
          {[ "ETH" ]} ∪ (list_to_set tokens.*1 ∖ {[ "__proto__" ]})) as Hdom.
  { rewrite dom_foldl_add_result, token_results_keys, dom_insert_L.
    set_solver. }
  split; [exact Hdom |].
  intros Hnd Heth Hproto. rewrite <- size_dom, Hdom.
  assert (list_to_set tokens.*1 ∖ {[ "__proto__" ]} =
          (list_to_set tokens.*1 : gset string)) as -> by set_solver.
  rewrite size_union by set_solver.
  rewrite size_singleton, size_list_to_set by exact Hnd.
  now rewrite length_fmap.
Qed.

End FetchShape.

Lemma getTokenBalances_shape_witness :
  NoDup BalanceFetcher.MAINNET_TOKENS.*1 /\
  ("ETH" ∉ BalanceFetcher.MAINNET_TOKENS.*1) /\
  ("__proto__" ∉ BalanceFetcher.MAINNET_TOKENS.*1) /\
  exists b,
    (BalanceFetcher.getTokenBalances wholeUnits
       (BalanceFetcher.Ethereum (Ok sampleProvider)) sampleHolder
       BalanceFetcher.MAINNET_TOKENS).2 = Ok b /\
    size b = 6%nat.
Proof.
  assert (forall k, String.eqb k "USDC" = false -> String.eqb k "DAI" = false ->
            String.eqb k "WETH" = false -> String.eqb k "USDT" = false ->
            String.eqb k "AAVE" = false ->
            k ∉ BalanceFetcher.MAINNET_TOKENS.*1) as Hout.
  { intros k H1 H2 H3 H4 H5 H. apply list_elem_of_In in H. simpl in H.
    repeat destruct H as [H | H]; try (subst k; discriminate). exact H. }
  assert ("ETH" ∉ BalanceFetcher.MAINNET_TOKENS.*1) as Heth
    by (apply Hout; reflexivity).
  assert ("__proto__" ∉ BalanceFetcher.MAINNET_TOKENS.*1) as Hproto
    by (apply Hout; reflexivity).
  split; [exact MAINNET_TOKENS_distinct |]. split; [exact Heth |].
  split; [exact Hproto |].
  destruct (getTokenBalances_shape wholeUnits sampleProvider sampleHolder
              BalanceFetcher.MAINNET_TOKENS) as (b & Hrun & _ & Hsize).
  exists b. split; [exact Hrun |].
  exact (Hsize MAINNET_TOKENS_distinct Heth Hproto).
Defined.

(** ** Holdings normalisation: what every result satisfies *)

Section NormalizeInvariants.

Import NormalizeHoldings.

Variable StringToNumber : string -> JsNumber.
Variable NumberToString : JsNumber -> string.
Variable toUpperCase : string -> string.

Lemma first_such_truthy (vs : list JsValue) (default : JsValue) :
  first_such truthy vs default = default \/
  truthy (first_such truthy vs default) = true.
Proof.
  induction vs as [| v vs IH]; simpl; [now left |].
  destruct (truthy v) eqn:Hv; [now right | exact IH].
Qed.

Lemma normalizeHolding_well_normalised (h : JsValue) (index : nat)
    (r : NormalizedHolding) :
  normalizeHolding StringToNumber NumberToString toUpperCase h index = Ok r ->
  well_normalised toUpperCase r.
Proof.
  intros Hr.
  destruct (non_nullish h) eqn:Hread.
  - rewrite (normalizeHolding_steps _ _ _ h index Hread) in Hr.
    destruct (symbol_source h) as [| | | | sym | |]; try discriminate Hr.
    cbn [call_toUpperCase mbind Exn_bind] in Hr.
    destruct (ToNumber StringToNumber NumberToString (amount_source h))
      as [a |]; [| discriminate Hr].
    destruct (ToNumber StringToNumber NumberToString (apy_source h))
      as [p |]; [| discriminate Hr].
    destruct (ToNumber StringToNumber NumberToString (value_usd_source h))
      as [u |]; [| discriminate Hr].
    injection Hr as <-. unfold well_normalised, normalized.
    cbn [id protocol_name token_symbol last_updated].
    split; [now destruct (field h "id") |].
    split.
    { destruct (first_such_truthy
                  [field h "protocol_name"; field h "protocol"; field h "provider"]
                  (JStr "Unknown")) as [-> | H]; [reflexivity | exact H]. }
    split; [now exists sym |].
    apply (first_such_truthy [field h "updated_at"; field h "last_updated"] JNull).
  - rewrite normalizeHolding_unreadable in Hr by exact Hread. discriminate Hr.
Qed.

Lemma map_indexed_results {A B} (f : A -> nat -> Exn B) (xs : list A)
    (start : nat) (ys : list B) :
  map_indexed f xs start = Ok ys ->
  Forall (fun y => exists x i, f x i = Ok y) ys.
Proof.
  revert start ys. induction xs as [| x xs IH]; intros start ys H; simpl in H.
  - injection H as <-. constructor.
  - destruct (f x start) as [y | e] eqn:Hy; [| discriminate].
    simpl in H.
    destruct (map_indexed f xs (S start)) as [ys' | e] eqn:Hys; [| discriminate].
    injection H as <-. constructor; [now exists x, start | now apply (IH (S start))].
Qed.

Lemma normalizeHoldings_results (holdings : JsValue)
    (rs : list NormalizedHolding) :
  normalizeHoldings StringToNumber NumberToString toUpperCase holdings = Ok rs ->
  Forall (well_normalised toUpperCase) rs.
Proof.
  unfold normalizeHoldings.
  destruct holdings; try (intros [= <-]; constructor).
  intros H. apply map_indexed_results in H.
  eapply Forall_impl; [exact H |].
  intros r (h & i & Hr). now apply (normalizeHolding_well_normalised h i).
Qed.

(** X12: what every normalised holding satisfies.  Whenever
    [normalizeHoldings] returns, each record of the result has an [id] that
    is not [undefined], a truthy [protocol_name] (so never an empty one), a
    [token_symbol] that is the upper-cased form of a string, and a
    [last_updated] that is either truthy or [null]. *)
Theorem normalizeHoldings_well_normalised (holdings : JsValue)
    (rs : list NormalizedHolding) :
  normalizeHoldings StringToNumber NumberToString toUpperCase holdings = Ok rs ->
  Forall (well_normalised toUpperCase) rs.
Proof. apply normalizeHoldings_results. Qed.

(** Upper-casing what is already upper-cased changes nothing: a property
    of the runtime's case mapping that the next result relies on. *)
Hypothesis toUpperCase_idempotent :
  forall s, toUpperCase (toUpperCase s) = toUpperCase s.

Lemma normalizeHolding_to_js (r : NormalizedHolding) (index : nat) :
  well_normalised toUpperCase r ->
  normalizeHolding StringToNumber NumberToString toUpperCase (to_js r) index =
    Ok r.
Proof.
  intros (Hid & Hname & (s & Hsym) & Hupd).
  assert (symbol_source (to_js r) = JStr (token_symbol r)) as Hs.
  { unfold symbol_source, to_js. simpl.
    destruct (String.eqb_spec (token_symbol r) "") as [-> | _]; reflexivity. }
  rewrite (normalizeHolding_readable _ _ _ (to_js r) index (token_symbol r)
             (amount r) (apy r) (value_usd r) eq_refl Hs eq_refl eq_refl eq_refl).
  f_equal. unfold normalized, to_js. simpl.
  rewrite Hid, Hname, Hsym, toUpperCase_idempotent, <- Hsym.
  destruct r as [rid rname rsym ramount rapy rvalue rupd]. simpl in *.
  f_equal. destruct Hupd as [-> | ->]; reflexivity.
Qed.

Lemma map_indexed_to_js (rs : list NormalizedHolding) (start : nat) :
  Forall (well_normalised toUpperCase) rs ->
  map_indexed (normalizeHolding StringToNumber NumberToString toUpperCase)
    (List.map to_js rs) start = Ok rs.
Proof.
  intros Hall. revert start.
  induction Hall as [| r rs Hr _ IH]; intros start; [reflexivity |].
  simpl. rewrite (normalizeHolding_to_js r start Hr). simpl.
  now rewrite IH.
Qed.

(** X13: normalising is idempotent, given that upper-casing is.  When
    [normalizeHoldings] returns a list, normalising that list again (the
    records as the objects they are) returns it unchanged. *)
Theorem normalizeHoldings_idempotent (holdings : JsValue)
    (rs : list NormalizedHolding) :
  normalizeHoldings StringToNumber NumberToString toUpperCase holdings = Ok rs ->
  normalizeHoldings StringToNumber NumberToString toUpperCase
    (JArr (List.map to_js rs)) = Ok rs.
Proof.
  intros H. apply normalizeHoldings_results in H.
  unfold normalizeHoldings. now apply map_indexed_to_js.
Qed.

End NormalizeInvariants.

Lemma all_ascii_complete (c : ascii) : In c all_ascii.
Proof.
  unfold all_ascii. apply in_map_iff. exists (nat_of_ascii c). split.
  - apply ascii_nat_embedding.
  - apply in_seq. pose proof (nat_ascii_bounded c). lia.
Qed.

Lemma asciiUpperCase_idempotent (s : string) :
  asciiUpperCase (asciiUpperCase s) = asciiUpperCase s.
Proof.
  assert (forall c, upper_ascii (upper_ascii c) = upper_ascii c) as Hc.
  { intros c.
    assert (forallb (fun a => Ascii.eqb (upper_ascii (upper_ascii a))
                                (upper_ascii a)) all_ascii = true) as Hall
      by (vm_compute; reflexivity).
    rewrite forallb_forall in Hall.
    specialize (Hall c (all_ascii_complete c)). now apply Ascii.eqb_eq in Hall. }
  unfold asciiUpperCase. induction s as [| c s IH]; [reflexivity |].
  cbn [map_string]. now rewrite Hc, IH.
Qed.

Lemma normalizeHoldings_well_normalised_witness :
  forallb holding_like sampleHoldings = true /\
  forall S2N N2S, exists rs,
    NormalizeHoldings.normalizeHoldings S2N N2S asciiUpperCase
      (JArr sampleHoldings) = Ok rs /\
    length rs = 2%nat /\
    Forall (well_normalised asciiUpperCase) rs.
Proof.
  split; [reflexivity |].
  intros S2N N2S. eexists. split; [reflexivity |]. split; [reflexivity |].
  apply (normalizeHoldings_well_normalised S2N N2S asciiUpperCase
           (JArr sampleHoldings)).
  reflexivity.
Defined.

Lemma normalizeHoldings_idempotent_witness :
  forallb holding_like sampleHoldings = true /\
  (forall s, asciiUpperCase (asciiUpperCase s) = asciiUpperCase s) /\
  forall S2N N2S, exists rs,
    NormalizeHoldings.normalizeHoldings S2N N2S asciiUpperCase
      (JArr sampleHoldings) = Ok rs /\
    NormalizeHoldings.normalizeHoldings S2N N2S asciiUpperCase
      (JArr (List.map to_js rs)) = Ok rs.
Proof.
  split; [reflexivity |]. split; [exact asciiUpperCase_idempotent |].
  intros S2N N2S. eexists. split; [reflexivity |].
  apply (normalizeHoldings_idempotent S2N N2S asciiUpperCase
           asciiUpperCase_idempotent (JArr sampleHoldings)).
  reflexivity.
Defined.

(** ** Formatters: fallbacks and agreement *)

Section FormatterAgreement.

Import NormalizeHoldings.

#[local] Open Scope list_scope.

Variable StringToNumber : string -> JsNumber.
Variable NumberToString : JsNumber -> string.
Variable formatIntlUSD : JsNumber -> string.





(** X15: the formatters of utils.ts and formatters.ts against the safe
    ones.  [formatPercent] and [formatCurrency] never throw; on a number
    that is not NaN [formatPercent] returns what [formatAPY] and
    [safePercent] with two decimals return, and [formatCurrency] what
    [safeCurrency] returns; on everything else, NaN included, they return
    ['N/A'], where the safe formatters convert the value or fall back to
    zero. *)
Theorem utils_formatters_agree (v : JsValue) :
  is_ok (Utils.formatPercent NumberToString v) = true /\
  is_ok (Utils.formatCurrency formatIntlUSD v) = true /\
  (forall n, v = JNum n -> isNaN n = false ->
     Utils.formatPercent NumberToString v =
       Formatters.formatAPY NumberToString n /\
     Utils.formatPercent NumberToString v =
       safePercent StringToNumber NumberToString v 2 /\
     Utils.formatCurrency formatIntlUSD v =
       safeCurrency StringToNumber NumberToString formatIntlUSD v) /\
  ((forall n, v = JNum n -> isNaN n = true) ->
     Utils.formatPercent NumberToString v = Ok "N/A" /\
     Utils.formatCurrency formatIntlUSD v = Ok "N/A").
Proof.
  unfold Utils.formatPercent, Utils.formatCurrency, Formatters.formatAPY,
    safePercent, safeCurrency.
  destruct v as [| | b | n | s | l | o];
    try (repeat split; intros; discriminate).
  pose proof (toFixed_in_range NumberToString n 2 ltac:(lia)) as Hok.
  split; [| split; [| split]].
  - destruct (isNaN n); [reflexivity |].
    now destruct (toFixed NumberToString n 2).
  - now destruct (isNaN n).
  - intros n' [= <-] Hn. cbn [nullish ToNumber mbind Exn_bind].
    rewrite Hn. now repeat split.
  - intros Hnan. now rewrite (Hnan n eq_refl).
Qed.

End FormatterAgreement.


Lemma utils_formatters_agree_witness :
  isNaN near_1_005 = false /\
  forall N2S,
    Utils.formatPercent N2S (JNum near_1_005) = Ok "1.00%" /\
    Formatters.formatAPY N2S near_1_005 = Ok "1.00%".
Proof.
  split; [reflexivity |]. intros N2S.
  destruct (utils_formatters_agree (fun _ => NaN) N2S (fun _ => "")
              (JNum near_1_005)) as (_ & _ & H & _).
  destruct (H near_1_005 eq_refl eq_refl) as (Hapy & _).
  split; [| rewrite <- Hapy]; reflexivity.
Defined.

(** ** Shortened addresses *)

Section ShortenAddress.

#[local] Open Scope list_scope.

Lemma substring_chars (n m : nat) (s : string) :
  list_ascii_of_string (substring n m s) =
    take m (drop n (list_ascii_of_string s)).
Proof.
  revert n m. induction s as [| c s IH]; intros n m.
  - destruct n, m; reflexivity.
  - destruct n as [| n]; simpl.
    + destruct m as [| m]; [reflexivity |]. simpl. f_equal.
      exact (IH 0%nat m).
    + exact (IH n m).
Qed.

Lemma append_chars (s1 s2 : string) :
  list_ascii_of_string (s1 +:+ s2) =
    list_ascii_of_string s1 ++ list_ascii_of_string s2.
Proof. induction s1 as [| c s1 IH]; simpl; [reflexivity | now f_equal]. Qed.

Lemma length_chars (s : string) :
  length (list_ascii_of_string s) = String.length s.
Proof. induction s as [| c s IH]; simpl; [reflexivity | now f_equal]. Qed.

Lemma slice_prefix (s : string) (k : nat) :
  list_ascii_of_string (Utils.slice s 0 (Some (Z.of_nat k))) =
    take k (list_ascii_of_string s).
Proof.
  unfold Utils.slice, Utils.slice_position. rewrite substring_chars.
  pose proof (length_chars s) as Hlen.
  destruct (Z.ltb_spec 0 0); [lia |].
  destruct (Z.ltb_spec (Z.of_nat k) 0); [lia |].
  assert (Z.to_nat (Z.min 0 (Z.of_nat (String.length s))) = 0%nat) as ->
    by lia.
  rewrite drop_0.
  destruct (Nat.le_gt_cases k (String.length s)) as [Hk | Hk].
  - assert (Z.to_nat (Z.max (Z.min (Z.of_nat k) (Z.of_nat (String.length s))
                             - Z.min 0 (Z.of_nat (String.length s))) 0) = k)
      as -> by lia.
    reflexivity.
  - assert (Z.to_nat (Z.max (Z.min (Z.of_nat k) (Z.of_nat (String.length s))
                             - Z.min 0 (Z.of_nat (String.length s))) 0) =
            String.length s) as -> by lia.
    rewrite (take_ge (list_ascii_of_string s) (String.length s)) by lia.
    rewrite (take_ge (list_ascii_of_string s) k) by lia. reflexivity.
Qed.

Lemma slice_suffix (s : string) (k : nat) :
  (0 < k)%nat ->
  list_ascii_of_string (Utils.slice s (- Z.of_nat k) None) =
    drop (String.length s - k) (list_ascii_of_string s).
Proof.
  intros Hk. unfold Utils.slice, Utils.slice_position.
  rewrite substring_chars.
  pose proof (length_chars s) as Hlen.
  destruct (Z.ltb_spec (- Z.of_nat k) 0); [| lia].
  assert (Z.to_nat (Z.max (Z.of_nat (String.length s) + - Z.of_nat k) 0) =
          (String.length s - k)%nat) as -> by lia.
  apply take_ge. rewrite length_drop. lia.
Qed.

Lemma shortenAddress_chars (address : string) :
  address <> "" ->
  list_ascii_of_string (Utils.shortenAddress address) =
    take 6 (list_ascii_of_string address)
    ++ ["."%char; "."%char; "."%char]
    ++ drop (String.length address - 4) (list_ascii_of_string address).
Proof.
  intros Hne. unfold Utils.shortenAddress.
  destruct (String.eqb_spec address ""); [congruence |].
  rewrite !append_chars.
  pose proof (slice_prefix address 6) as Hprefix.
  pose proof (slice_suffix address 4 ltac:(lia)) as Hsuffix.
  change (Z.of_nat 6) with 6%Z in Hprefix.
  change (- Z.of_nat 4)%Z with (-4)%Z in Hsuffix.
  rewrite Hprefix, Hsuffix. reflexivity.
Qed.

(** X16: what [shortenAddress] makes of an address.  The empty string stays
    empty.  Any other address becomes its first six characters, three
    dots and its last four characters (all of it, where it is shorter), so
    the result never has more than 13 characters, and it is shorter than
    the address exactly when the address has 14 characters or more. *)
Theorem shortenAddress_shape (address : string) :
  (address = "" -> Utils.shortenAddress address = "") /\
  (address <> "" ->
   list_ascii_of_string (Utils.shortenAddress address) =
     take 6 (list_ascii_of_string address)
     ++ ["."%char; "."%char; "."%char]
     ++ drop (String.length address - 4) (list_ascii_of_string address)) /\
  (String.length (Utils.shortenAddress address) <= 13)%nat /\
  ((String.length (Utils.shortenAddress address) < String.length address)%nat
   <-> (14 <= String.length address)%nat).
Proof.
  split; [now intros -> |]. split; [apply shortenAddress_chars |].
  destruct (String.eqb_spec address "") as [-> | Hne].
  - simpl. split; lia.
  - pose proof (shortenAddress_chars address Hne) as Hc.
    apply (f_equal length) in Hc.
    rewrite length_chars, !length_app, length_take, length_drop,
      length_chars in Hc.
    cbn [length] in Hc. split; lia.
Qed.

Lemma shortenAddress_shape_witness :
  sampleHolder <> "" /\
  (14 <= String.length sampleHolder)%nat /\
  Utils.shortenAddress sampleHolder = "0x5290...9EE7" /\
  (String.length (Utils.shortenAddress sampleHolder)
   < String.length sampleHolder)%nat.
Proof.
  split; [discriminate |]. split; [vm_compute; lia |].
  split; [reflexivity |].
  apply (shortenAddress_shape sampleHolder). vm_compute. lia.
Defined.

End ShortenAddress.
